(** * Night Mode add-on for Anki: a shallow embedding and its properties

    The add-on exists in two versions.  [Night_Mode.py] (version 1.x) is a
    single module of global variables and functions that rewrite the host's
    style attributes; [night_mode/night_mode.py] (version 2.x) wraps the same
    technique in the classes [StylingManager] and [NightMode].

    Python values are dynamically typed, functions mutate module globals and
    host objects, and any statement may raise.  The embedding keeps all
    three: values of the profile dictionary are [pyval]s, the globals and the
    host attributes form one [World], and a function is a state transformer
    that returns either a value or the exception it raised, together with the
    world as the assignments before the exception left it. *)

From Stdlib Require Import String Ascii List Bool ZArith DecimalString.
From stdpp Require Import base strings gmap list.

Open Scope string_scope.

(** ** Python values *)

Inductive pyval : Type :=
| PyNone
| PyBool (b : bool)
| PyInt (z : Z)
| PyStr (s : string).

(** Truth value testing, as [if x:] and [not x] perform it. *)
Definition truthy (v : pyval) : bool :=
  match v with
  | PyNone => false
  | PyBool b => b
  | PyInt z => negb (Z.eqb z 0)
  | PyStr s => negb (String.eqb s "")
  end.

Definition is_pybool (v : pyval) : bool :=
  match v with PyBool _ => true | _ => false end.

Definition is_pystr (v : pyval) : bool :=
  match v with PyStr _ => true | _ => false end.

Inductive exn : Type :=
| AttributeError
| TypeError
| IndexError.

Inductive outcome (A : Type) : Type :=
| Returned (a : A)
| Raised (e : exn).
Arguments Returned {A} a.
Arguments Raised {A} e.

(** The double quote character, for string constants that contain it. *)
Definition dq : string := String "034"%char EmptyString.

(** [str.startswith] *)
Definition startswith (s p : string) : bool := String.prefix p s.

(** [dict.get(key, default)] *)
Definition dict_get (d : gmap string pyval) (key : string) (dflt : pyval) : pyval :=
  default dflt (d !! key).

(** ** Version 2.x: [StylingManager] and [NightMode]

    The classes [Styler], [Config] and [ConfigValueGetter] live in modules
    of the add-on that are imported by [night_mode.py]; of a styler only its
    [name] and its two methods are used, of the configuration only the value
    of [state_on] and the list [disabled_stylers]. *)

Record Styler (App : Type) : Type := {
  name : string;
  replace_attributes : App -> App;
  restore_attributes : App -> App
}.
Arguments name {App} _.
Arguments replace_attributes {App} _ _.
Arguments restore_attributes {App} _ _.

Record StylingManager (App : Type) : Type := {
  stylers : list (Styler App);
  disabled_stylers : list string
}.
Arguments stylers {App} _.
Arguments disabled_stylers {App} _.

(** [styler.name not in self.config.disabled_stylers] *)
Definition not_in (x : string) (l : list string) : bool :=
  negb (existsb (String.eqb x) l).

(** The property [active_stylers]. *)
Definition active_stylers {App} (self : StylingManager App) : list (Styler App) :=
  List.filter (fun styler => not_in (name styler) (disabled_stylers self)) (stylers self).

(** [StylingManager.replace]: the loop threads the application state through
    the calls in list order. *)
Definition StylingManager_replace {App} (self : StylingManager App) (app : App) : App :=
  fold_left (fun a styler => replace_attributes styler a) (active_stylers self) app.

(** [StylingManager.restore] *)
Definition StylingManager_restore {App} (self : StylingManager App) (app : App) : App :=
  fold_left (fun a styler => restore_attributes styler a) (stylers self) app.

(** The script of the [if] branch of [night_class_injection] (line 214). *)
Definition javascript_add_night_mode_class : string :=
  "
            function add_night_mode_class(){
                current_classes = document.body.className;
                if(current_classes.indexOf(" +:+
  dq +:+
  "night_mode" +:+
  dq +:+
  ") == -1)
                {
                    document.body.className += " +:+
  dq +:+
  " night_mode" +:+
  dq +:+
  ";
                }
            }
            // explanation of setTimeout use:
            // callback defined in _showQuestion of reviewer.js would otherwise overwrite
            // the newly set body class; in order to prevent that the function execution
            // is being placed on the end of execution queue (hence time = 0)
            setTimeout(add_night_mode_class, 0)
            ".

(** The script of the [else] branch (line 229). *)
Definition javascript_remove_night_mode_class : string :=
  "
            function remove_night_mode_class(){
                current_classes = document.body.className;
                if(current_classes.indexOf(" +:+
  dq +:+
  "night_mode" +:+
  dq +:+
  ") != -1)
                {
                    document.body.className = current_classes.replace(" +:+
  dq +:+
  "night_mode" +:+
  dq +:+
  "," +:+
  dq +:+
  dq +:+
  ");
                }
            }
            setTimeout(remove_night_mode_class, 0)
            ".

(** The part of a [NightMode] object that [night_class_injection] reads:
    [self.config.state_on.value]. *)
Record NightMode : Type := {
  profile_loaded : bool;
  config_state_on_value : pyval
}.

(** [NightMode.night_class_injection]; [card] and [context] are the unused
    arguments of the [prepareQA] hook. *)
Definition night_class_injection {Card Context : Type}
    (self : NightMode) (html : string) (card : Card) (context : Context) : string :=
  let javascript :=
    if truthy (config_state_on_value self)
    then javascript_add_night_mode_class
    else javascript_remove_night_mode_class in
  let html := ("<script>" +:+ javascript +:+ "</script>") +:+ html in
  html.

(** ** Version 1.x: the data of [Night_Mode.py] *)

(** [theme = wal()]: the palette object of the [colors] module, of which the
    add-on reads these attributes. *)
Record Theme : Type := {
  color0 : string;
  color1 : string;
  color3 : string;
  color4 : string;
  color7 : string;
  foreground : string
}.

(** A [QAction] of the menu, as far as the add-on uses it. *)
Record QAction : Type := {
  action_text : string;
  action_checkable : bool;
  action_checked : bool
}.

Definition new_QAction (text : string) (checkable : bool) : QAction :=
  {| action_text := text; action_checkable := checkable; action_checked := false |}.

(** [QAction.setChecked]: only a checkable action changes. *)
Definition QAction_setChecked (b : bool) (a : QAction) : QAction :=
  if action_checkable a
  then {| action_text := action_text a; action_checkable := true; action_checked := b |}
  else a.

(** The seven configurable globals. *)
Record Settings : Type := {
  nm_state_on : pyval;
  nm_enable_in_dialogs : pyval;
  nm_invert_image : pyval;
  nm_invert_latex : pyval;
  nm_transparent_latex : pyval;
  nm_color_bl : pyval;
  nm_color_td : pyval
}.

(** The globals that hold the checkable menu actions; [None] is Python's
    [None], their value until [nm_setup_menu] assigns them. *)
Record MenuActions : Type := {
  nm_menu_switch : option QAction;
  nm_menu_iimage : option QAction;
  nm_menu_ilatex : option QAction;
  nm_menu_endial : option QAction;
  nm_menu_tlatex : option QAction
}.

(** The style attributes of the host that the add-on writes. *)
Record Styles : Type := {
  mw_styleSheet : string;
  toolbar_css : string;
  reviewer_bottomCSS : string;
  reviewer_css : string;
  reviewer_revHtml : string;
  deckBrowser_css : string;
  deckBrowser_bottom_css : string;
  overview_css : string;
  overview_bottom_css : string;
  sharedCSS : string
}.

(** The values saved when the module is imported (lines 107-127). *)
Record Defaults : Type := {
  nm_default_css_menu : string;
  nm_default_css_top : string;
  nm_default_css_body : string;
  nm_default_reviewer_html : string;
  nm_default_css_bottom : string;
  nm_default_css_decks : string;
  nm_default_css_decks_bottom : string;
  nm_default_css_overview : string;
  nm_default_css_overview_bottom : string;
  nm_default_css_waiting_screen : string;
  DEFLAULT_COLOUR_MARKED : string;
  DEFLAULT_COLOUR_SUSPENDED : string
}.

(** The command lists of [anki.latex]; each is a list of argument vectors. *)
Record Latex : Type := {
  pngCommands : list (list string);
  svgCommands : list (list string);
  latexCmds : list (list string)
}.

(** Calls into the host that leave no trace in the attributes above.  The
    text of [showWarning] is a message constant and, for [NM_ERROR_SWITCH],
    the exception whose traceback is formatted into it. *)
Inductive HostCall : Type :=
| showWarning (msg : string) (traceback : option exn)
| reviewer_initWeb
| deckBrowser_refresh
| overview_refresh
| toolbar_draw
| addHook (hook : string) (function : string).

Inductive MenuEntry : Type :=
| Action (text : string)
| Separator.

(** Everything the functions of the module read or write: the module's own
    globals first, then the host ([mw], [aqt.browser], [anki.latex]). *)
Record World : Type := {
  settings : Settings;
  nm_profile_loaded : bool;
  actions : MenuActions;
  nm_css_custom_colors : string;
  nm_custom_color_map : list (string * string);
  defaults : Defaults;
  styles : Styles;
  COLOUR_MARKED : string;
  COLOUR_SUSPENDED : string;
  mw_state : string;
  profile : gmap string pyval;
  latex : Latex;
  addon_view_menu : option (list string);
  nm_menu : list MenuEntry;
  calls : list HostCall
}.

(** *** Field updates *)

Definition with_settings (f : Settings -> Settings) (w : World) : World :=
  {| settings := f (settings w); nm_profile_loaded := nm_profile_loaded w;
     actions := actions w; nm_css_custom_colors := nm_css_custom_colors w;
     nm_custom_color_map := nm_custom_color_map w; defaults := defaults w;
     styles := styles w; COLOUR_MARKED := COLOUR_MARKED w;
     COLOUR_SUSPENDED := COLOUR_SUSPENDED w; mw_state := mw_state w;
     profile := profile w; latex := latex w;
     addon_view_menu := addon_view_menu w; nm_menu := nm_menu w;
     calls := calls w |}.

Definition with_profile_loaded (b : bool) (w : World) : World :=
  {| settings := settings w; nm_profile_loaded := b;
     actions := actions w; nm_css_custom_colors := nm_css_custom_colors w;
     nm_custom_color_map := nm_custom_color_map w; defaults := defaults w;
     styles := styles w; COLOUR_MARKED := COLOUR_MARKED w;
     COLOUR_SUSPENDED := COLOUR_SUSPENDED w; mw_state := mw_state w;
     profile := profile w; latex := latex w;
     addon_view_menu := addon_view_menu w; nm_menu := nm_menu w;
     calls := calls w |}.

Definition with_actions (f : MenuActions -> MenuActions) (w : World) : World :=
  {| settings := settings w; nm_profile_loaded := nm_profile_loaded w;
     actions := f (actions w); nm_css_custom_colors := nm_css_custom_colors w;
     nm_custom_color_map := nm_custom_color_map w; defaults := defaults w;
     styles := styles w; COLOUR_MARKED := COLOUR_MARKED w;
     COLOUR_SUSPENDED := COLOUR_SUSPENDED w; mw_state := mw_state w;
     profile := profile w; latex := latex w;
     addon_view_menu := addon_view_menu w; nm_menu := nm_menu w;
     calls := calls w |}.

Definition with_css_custom_colors (s : string) (w : World) : World :=
  {| settings := settings w; nm_profile_loaded := nm_profile_loaded w;
     actions := actions w; nm_css_custom_colors := s;
     nm_custom_color_map := nm_custom_color_map w; defaults := defaults w;
     styles := styles w; COLOUR_MARKED := COLOUR_MARKED w;
     COLOUR_SUSPENDED := COLOUR_SUSPENDED w; mw_state := mw_state w;
     profile := profile w; latex := latex w;
     addon_view_menu := addon_view_menu w; nm_menu := nm_menu w;
     calls := calls w |}.

Definition with_custom_color_map (m : list (string * string)) (w : World) : World :=
  {| settings := settings w; nm_profile_loaded := nm_profile_loaded w;
     actions := actions w; nm_css_custom_colors := nm_css_custom_colors w;
     nm_custom_color_map := m; defaults := defaults w;
     styles := styles w; COLOUR_MARKED := COLOUR_MARKED w;
     COLOUR_SUSPENDED := COLOUR_SUSPENDED w; mw_state := mw_state w;
     profile := profile w; latex := latex w;
     addon_view_menu := addon_view_menu w; nm_menu := nm_menu w;
     calls := calls w |}.

Definition with_styles (s : Styles) (w : World) : World :=
  {| settings := settings w; nm_profile_loaded := nm_profile_loaded w;
     actions := actions w; nm_css_custom_colors := nm_css_custom_colors w;
     nm_custom_color_map := nm_custom_color_map w; defaults := defaults w;
     styles := s; COLOUR_MARKED := COLOUR_MARKED w;
     COLOUR_SUSPENDED := COLOUR_SUSPENDED w; mw_state := mw_state w;
     profile := profile w; latex := latex w;
     addon_view_menu := addon_view_menu w; nm_menu := nm_menu w;
     calls := calls w |}.

Definition with_browser_colours (marked suspended : string) (w : World) : World :=
  {| settings := settings w; nm_profile_loaded := nm_profile_loaded w;
     actions := actions w; nm_css_custom_colors := nm_css_custom_colors w;
     nm_custom_color_map := nm_custom_color_map w; defaults := defaults w;
     styles := styles w; COLOUR_MARKED := marked;
     COLOUR_SUSPENDED := suspended; mw_state := mw_state w;
     profile := profile w; latex := latex w;
     addon_view_menu := addon_view_menu w; nm_menu := nm_menu w;
     calls := calls w |}.

Definition with_profile (p : gmap string pyval) (w : World) : World :=
  {| settings := settings w; nm_profile_loaded := nm_profile_loaded w;
     actions := actions w; nm_css_custom_colors := nm_css_custom_colors w;
     nm_custom_color_map := nm_custom_color_map w; defaults := defaults w;
     styles := styles w; COLOUR_MARKED := COLOUR_MARKED w;
     COLOUR_SUSPENDED := COLOUR_SUSPENDED w; mw_state := mw_state w;
     profile := p; latex := latex w;
     addon_view_menu := addon_view_menu w; nm_menu := nm_menu w;
     calls := calls w |}.

Definition with_latex (l : Latex) (w : World) : World :=
  {| settings := settings w; nm_profile_loaded := nm_profile_loaded w;
     actions := actions w; nm_css_custom_colors := nm_css_custom_colors w;
     nm_custom_color_map := nm_custom_color_map w; defaults := defaults w;
     styles := styles w; COLOUR_MARKED := COLOUR_MARKED w;
     COLOUR_SUSPENDED := COLOUR_SUSPENDED w; mw_state := mw_state w;
     profile := profile w; latex := l;
     addon_view_menu := addon_view_menu w; nm_menu := nm_menu w;
     calls := calls w |}.

Definition with_menus (view : option (list string)) (entries : list MenuEntry)
    (w : World) : World :=
  {| settings := settings w; nm_profile_loaded := nm_profile_loaded w;
     actions := actions w; nm_css_custom_colors := nm_css_custom_colors w;
     nm_custom_color_map := nm_custom_color_map w; defaults := defaults w;
     styles := styles w; COLOUR_MARKED := COLOUR_MARKED w;
     COLOUR_SUSPENDED := COLOUR_SUSPENDED w; mw_state := mw_state w;
     profile := profile w; latex := latex w;
     addon_view_menu := view; nm_menu := entries;
     calls := calls w |}.

(** A host call is appended to the log. *)
Definition with_call (c : HostCall) (w : World) : World :=
  {| settings := settings w; nm_profile_loaded := nm_profile_loaded w;
     actions := actions w; nm_css_custom_colors := nm_css_custom_colors w;
     nm_custom_color_map := nm_custom_color_map w; defaults := defaults w;
     styles := styles w; COLOUR_MARKED := COLOUR_MARKED w;
     COLOUR_SUSPENDED := COLOUR_SUSPENDED w; mw_state := mw_state w;
     profile := profile w; latex := latex w;
     addon_view_menu := addon_view_menu w; nm_menu := nm_menu w;
     calls := calls w ++ [c] |}.

(** *** Statements: state transformers that may raise *)

Definition Py (A : Type) : Type := World -> outcome A * World.

Definition ret {A} (a : A) : Py A := fun w => (Returned a, w).

Definition raise {A} (e : exn) : Py A := fun w => (Raised e, w).

Definition bind {A B} (m : Py A) (k : A -> Py B) : Py B :=
  fun w =>
    match m w with
    | (Returned a, w') => k a w'
    | (Raised e, w') => (Raised e, w')
    end.

(** [try: m  except Exception as e: h e] *)
Definition try_except {A} (m : Py A) (h : exn -> Py A) : Py A :=
  fun w =>
    match m w with
    | (Returned a, w') => (Returned a, w')
    | (Raised e, w') => h e w'
    end.

Definition gets {A} (f : World -> A) : Py A := fun w => (Returned (f w), w).

Definition modify (f : World -> World) : Py unit := fun w => (Returned tt, f w).

(** [if c: m] *)
Definition when (c : bool) (m : Py unit) : Py unit := if c then m else ret tt.

Declare Scope py_scope.
Delimit Scope py_scope with py.
Notation "x <- m ;; k" := (bind m (fun x => k))
  (at level 100, m at next level, right associativity) : py_scope.
Notation "m ;;; k" := (bind m (fun _ => k))
  (at level 100, right associativity) : py_scope.
Open Scope py_scope.

(** The world a statement leaves, and what it returned or raised. *)
Definition exec {A} (m : Py A) (w : World) : World := snd (m w).
Definition result {A} (m : Py A) (w : World) : outcome A := fst (m w).

(** [s + v] for a [str] [s]: a [TypeError] unless [v] is a [str] too. *)
Definition str_add (s : string) (v : pyval) : Py string :=
  match v with
  | PyStr t => ret (s +:+ t)
  | _ => raise TypeError
  end.

(** Module-level constant [NM_ERROR_NO_PROFILE] (line 1332) *)
Definition NM_ERROR_NO_PROFILE : string :=
  "Switching night mode failed: The profile is not loaded yet.
Probably it's a bug of Anki or you tried to switch mode to quickly.".

(** Module-level constant [NM_ERROR_SWITCH] (line 1335); the traceback is
    formatted into it at [%s]. *)
Definition NM_ERROR_SWITCH : string :=
  "Switching night mode failed: Something went really really wrong.
Contact add-on author to get help.

Please provide following traceback when reporting the issue:
%s
".

(** ** Version 1.x: the functions of [Night_Mode.py] *)

Section Night_Mode.

(** The palette returned by [wal()] and the host's version string. *)
Variable theme : Theme.
Variable appVersion : string.

Definition nl : string := String "010"%char EmptyString.

(** *** Colours (lines 99-105)

    [nm_color_bl] and [nm_color_td] are settings; the module-level style
    constants below are built once, at import, from their first values. *)
Definition nm_color_bl_init : string := color1 theme.
Definition nm_color_bd : string := color0 theme.
Definition nm_color_s : string := color0 theme.
Definition nm_color_tl : string := "#ffffff".
Definition nm_color_td_init : string := foreground theme.
Definition nm_color_al : string := color4 theme.
Definition nm_color_ad : string := color3 theme.

(** [nm_css_custom_colors] as line 1072 first computes it. *)
Definition nm_css_custom_colors_init : string :=
  "color:" +:+ nm_color_td_init +:+ ";" +:+ nl +:+ "background:" +:+ nm_color_bl_init +:+ ";".

(** *** Style constants *)

(** Result of [nm_css_scrollbar()] (line 980) *)
Definition nm_css_scrollbar : string :=
  "
        QScrollBar:vertical {
            width: 10px;
            background: " +:+
  (color7 theme) +:+
  ";
        }
        QScrollBar::handle:vertical {
            background: " +:+
  (color4 theme) +:+
  ";
            min-height: 3px;
            border-radius: 3px;
            margin: 2px 2px 2px 2px;
        }
        QScrollBar::add-line:vertical
        {
            height: 0px;
            subcontrol-position: bottom;
            subcontrol-origin: margin;
        }
        QScrollBar::sub-line:vertical
        {
            height: 0px;
            subcontrol-position: top;
            subcontrol-origin: margin;
        }
        QScrollBar::up-arrow:vertical, QScrollBar::down-arrow:vertical 
        {
            width: 5px;
            height: 5px;
            background: " +:+
  (color1 theme) +:+
  ";
        }
        QScrollBar::add-page:vertical, QScrollBar::sub-page:vertical
        {
            background: none;
        }
        QScrollBar:horizontal {
            height: 10px;
            background: " +:+
  (color7 theme) +:+
  ";
        }
        QScrollBar::handle:horizontal {
            background: " +:+
  (color4 theme) +:+
  ";
            min-width: 3px;
            border-radius: 3px;
            margin: 2px 2px 2px 2px;
        }
        QScrollBar::add-line:horizontal
        {
            width: 0px;
            subcontrol-position: bottom;
            subcontrol-origin: margin;
        }
        QScrollBar::sub-line:horizontal
        {
            width: 0px;
            subcontrol-position: top;
            subcontrol-origin: margin;
        }
        QScrollBar::up-arrow:horizontal, QScrollBar::down-arrow:horizontal 
        {
            width: 5px;
            height: 5px;
            background: " +:+
  (color1 theme) +:+
  ";
        }
        QScrollBar::add-page:horizontal, QScrollBar::sub-page:horizontal
        {
            background: none;
        }
        ::-webkit-scrollbar
        {
            height: 10px;
            width: 10px;
        }
        /* background */
        ::-webkit-scrollbar-track
        {
            background:" +:+
  (color7 theme) +:+
  ";
        }
        /* handle */
        ::-webkit-scrollbar-thumb
        {
            min-height: 3px;
            min-width: 3px;
            border-radius: 3px;
            border: 2px solid " +:+
  (color7 theme) +:+
  ";
            background:" +:+
  (color4 theme) +:+
  ";
        }
        ".

(** Module-level constant [nm_css_button_idle] (line 1076) *)
Definition nm_css_button_idle : string :=
  "
    background:" +:+
  nm_color_bl_init +:+
  ";
    color:" +:+
  nm_color_tl +:+
  ";
    margin-top:5px;
    position:relative;
    top:0;
    padding:3px 8px;
    border:1px solid #3E474D;
    border-top-color:#1c252b;
    border-left-color:#2d363c;
".

(** Module-level constant [nm_css_button_hover] (line 1088) *)
Definition nm_css_button_hover : string :=
  "
    background: " +:+
  nm_color_ad +:+
  ";
    color:" +:+
  nm_color_tl +:+
  ";
".

(** Module-level constant [nm_css_button_active] (line 1093) *)
Definition nm_css_button_active : string :=
  "
    background: " +:+
  nm_color_al +:+
  ";
    color:" +:+
  nm_color_tl +:+
  ";
".

(** Module-level constant [nm_css_buttons] (line 1098) *)
Definition nm_css_buttons : string :=
  "
button
{
    " +:+
  nm_css_button_idle +:+
  "
    text-shadow:1px 1px #1f272b;
    display:inline-block;
    -webkit-box-shadow:1px 1px 1px rgba(0,0,0,0.1);
    -webkit-border-radius:3px
}
button:hover
{
    " +:+
  nm_css_button_hover +:+
  "
}
button:active
{
    " +:+
  nm_css_button_active +:+
  "
    -webkit-box-shadow:1px 1px 1px rgba(255,255,255,0.1);
}
".

(** Module-level constant [nm_css_color_replacer] (line 1133) *)
Definition nm_css_color_replacer : string :=
  "
font[color=" +:+
  dq +:+
  "#007700" +:+
  dq +:+
  "],span[style=" +:+
  dq +:+
  "color:#070" +:+
  dq +:+
  "]
{
    color:#30dc16!important
}
font[color=" +:+
  dq +:+
  "#000099" +:+
  dq +:+
  "],span[style=" +:+
  dq +:+
  "color:#00F" +:+
  dq +:+
  "]
{
    color:#00BBFF!important
}
font[color=" +:+
  dq +:+
  "#C35617" +:+
  dq +:+
  "],span[style=" +:+
  dq +:+
  "color:#c00" +:+
  dq +:+
  "]
{
    color:#E79292!important
}
font[color=" +:+
  dq +:+
  "#00a" +:+
  dq +:+
  "]
{
    color:#00BBFF
}
".

(** Module-level constant [nm_css_bottom] (line 1152) *)
Definition nm_css_bottom : string :=
  nm_css_buttons +:+
  nm_css_color_replacer +:+
  "
body, #outer
{
    background: " +:+
  nm_color_bl_init +:+
  ";
    color: " +:+
  nm_color_tl +:+
  ";
    border-top-color:" +:+
  nm_color_al +:+
  ";
}
.stattxt
{
    color:" +:+
  nm_color_td_init +:+
  ";
}
/* Make the color above " +:+
  dq +:+
  "Again" +:+
  dq +:+
  " " +:+
  dq +:+
  "Hard" +:+
  dq +:+
  " " +:+
  dq +:+
  "Easy" +:+
  dq +:+
  " and so on buttons readable */
.nobold
{
    color:" +:+
  nm_color_tl +:+
  ";
}
".

(** Module-level constant [nm_css_top] (line 1170) *)
Definition nm_css_top : string :=
  "
html, #header
{
    " +:+
  nm_css_custom_colors_init +:+
  ";
}
body, #header
{
    " +:+
  nm_css_custom_colors_init +:+
  ";
    border-bottom-color:" +:+
  nm_color_al +:+
  ";
}
.hitem
{
    color:" +:+
  nm_color_tl +:+
  ";
}
".

(** Module-level constant [nm_css_ilatex] (line 1186) *)
Definition nm_css_ilatex : string :=
  ".latex
{
    filter:invert(1);
    -webkit-filter:invert(1)
}
".

(** Module-level constant [nm_css_iimage] (line 1194) *)
Definition nm_css_iimage : string :=
  "img
{
    filter:invert(1);
    -webkit-filter:invert(1)
}
".

(** Module-level constant [nm_css_body] (line 1203) *)
Definition nm_css_body : string :=
  "
.card input
{
    background-color:red!important;
    border-color:blue!important;
    color:#eee!important
}
.card label
{
    margin-top: 5px;
    color: " +:+
  (color7 theme) +:+
  ";
}
.typeGood
{
    color:black;
    background:#30dc16
}
.typeBad
{
    color:black;
    background:#c43c35
}
.typeMissed
{
    color:black;
    background:#ccc
}
#answer
{
    height:0;
}
img#star
{
    -webkit-filter:invert(0%)!important
}
.cloze
{
    color:#5566ee!important
}
a
{
    color:#0099CC
}
".

(** Module-level constant [nm_css_decks] (line 1248) *)
Definition nm_css_decks : string :=
  nm_css_buttons +:+
  nm_css_color_replacer +:+
  "
a
{
    color:" +:+
  nm_color_tl +:+
  ";
}
.current
{
    background-color:#e7e7e7;
}
a.deck, .collapse
{
    color: #000;
}
tr.deck td
{
    height:35px;
}
tr.deck button img
{
    -webkit-filter:invert(20%)
}
tr.deck font[color=" +:+
  dq +:+
  "#007700" +:+
  dq +:+
  "]
{
    color:#30dc16
}
tr.deck font[color=" +:+
  dq +:+
  "#000099" +:+
  dq +:+
  "]
{
    color:#00BBFF
}
.filtered
{
    color:#00AAEE!important
}
".

(** Module-level constant [nm_css_other_bottoms] (line 1283) *)
Definition nm_css_other_bottoms : string :=
  nm_css_buttons +:+
  "
#header
{
    background: " +:+
  nm_color_bl_init +:+
  ";
    color:" +:+
  nm_color_td_init +:+
  "!important;
    border-top-color:" +:+
  nm_color_al +:+
  ";
    height:40px
}
".

(** Result of [nm_css_overview()] (line 1294) *)
Definition nm_css_overview : string :=
  nm_css_buttons +:+
  "
    .descfont
    {
    }
    ".

(** Module-level constant [nm_css_menu] (line 1301) *)
Definition nm_css_menu : string :=
  "
QMenuBar,QMenu
{
    background-color:" +:+
  nm_color_bl_init +:+
  "!important;
    color:" +:+
  nm_color_td_init +:+
  "!important;
}
QMenuBar::item
{
    background-color:transparent
}
QMenuBar::item:selected
{
    background-color:" +:+
  nm_color_al +:+
  "!important;
    color:" +:+
  nm_color_tl +:+
  "!important;
}
QMenu
{
    border:1px solid " +:+
  nm_color_al +:+
  ";
}
QMenu::item::selected
{
    background-color:" +:+
  nm_color_al +:+
  ";
    color:" +:+
  nm_color_tl +:+
  ";
}
QMenu::item
{
    padding:3px 25px 3px 25px;
    border:1px solid transparent
}
".

(** *** Generated style strings *)

(** [nm_make_css_custom_colors_string] *)
Definition nm_make_css_custom_colors_string : Py string :=
  td <- gets (fun w => nm_color_td (settings w)) ;;
  bl <- gets (fun w => nm_color_bl (settings w)) ;;
  s <- str_add "color:" td ;;
  s <- str_add (s +:+ ";" +:+ nl +:+ "background:") bl ;;
  ret (s +:+ ";").

(** [nm_refresh_css_custom_colors_string] *)
Definition nm_refresh_css_custom_colors_string : Py unit :=
  s <- nm_make_css_custom_colors_string ;;
  modify (with_css_custom_colors s).

(** [nm_css_custom_color_map]: the loop over [nm_custom_color_map.items()]. *)
Definition nm_css_custom_color_map : Py string :=
  items <- gets nm_custom_color_map ;;
  ret (fold_left
         (fun css '(old, new) =>
            css +:+ ("font[color=" +:+ dq +:+ old +:+ dq +:+ "]{color:" +:+ new +:+ "!important}"))
         items "").

(** [nm_card_color_css] *)
Definition nm_card_color_css : Py string :=
  td <- gets (fun w => nm_color_td (settings w)) ;;
  s <- str_add ".card {    color:" td ;;
  ret (s +:+ "!important;" +:+ "background-color:#blue!important}").

(** [nm_body_color_css] *)
Definition nm_body_color_css : Py string :=
  td <- gets (fun w => nm_color_td (settings w)) ;;
  s <- str_add " body {    color:" td ;;
  ret (s +:+ "!important;" +:+ "background-color:!important}").

(** *** Menu actions *)

Inductive ActionVar : Type :=
| Menu_switch | Menu_iimage | Menu_ilatex | Menu_endial | Menu_tlatex.

Definition get_action (v : ActionVar) (m : MenuActions) : option QAction :=
  match v with
  | Menu_switch => nm_menu_switch m
  | Menu_iimage => nm_menu_iimage m
  | Menu_ilatex => nm_menu_ilatex m
  | Menu_endial => nm_menu_endial m
  | Menu_tlatex => nm_menu_tlatex m
  end.

Definition set_action (v : ActionVar) (a : option QAction) (m : MenuActions) : MenuActions :=
  match v with
  | Menu_switch =>
      {| nm_menu_switch := a; nm_menu_iimage := nm_menu_iimage m;
         nm_menu_ilatex := nm_menu_ilatex m; nm_menu_endial := nm_menu_endial m;
         nm_menu_tlatex := nm_menu_tlatex m |}
  | Menu_iimage =>
      {| nm_menu_switch := nm_menu_switch m; nm_menu_iimage := a;
         nm_menu_ilatex := nm_menu_ilatex m; nm_menu_endial := nm_menu_endial m;
         nm_menu_tlatex := nm_menu_tlatex m |}
  | Menu_ilatex =>
      {| nm_menu_switch := nm_menu_switch m; nm_menu_iimage := nm_menu_iimage m;
         nm_menu_ilatex := a; nm_menu_endial := nm_menu_endial m;
         nm_menu_tlatex := nm_menu_tlatex m |}
  | Menu_endial =>
      {| nm_menu_switch := nm_menu_switch m; nm_menu_iimage := nm_menu_iimage m;
         nm_menu_ilatex := nm_menu_ilatex m; nm_menu_endial := a;
         nm_menu_tlatex := nm_menu_tlatex m |}
  | Menu_tlatex =>
      {| nm_menu_switch := nm_menu_switch m; nm_menu_iimage := nm_menu_iimage m;
         nm_menu_ilatex := nm_menu_ilatex m; nm_menu_endial := nm_menu_endial m;
         nm_menu_tlatex := a |}
  end.

(** [v.setChecked(b)] on the object a global names; on [None] the attribute
    lookup raises. *)
Definition setChecked (v : ActionVar) (b : bool) : Py unit :=
  a <- gets (fun w => get_action v (actions w)) ;;
  match a with
  | None => raise AttributeError
  | Some act => modify (with_actions (set_action v (Some (QAction_setChecked b act))))
  end.

(** Is the action checked?  [None] when the global holds no action. *)
Definition checked (v : ActionVar) (w : World) : option bool :=
  action_checked <$> get_action v (actions w).

(** *** Settings *)

Inductive SettingVar : Type :=
| State_on | Enable_in_dialogs | Invert_image | Invert_latex
| Transparent_latex | Color_bl | Color_td.

Definition get_setting (v : SettingVar) (s : Settings) : pyval :=
  match v with
  | State_on => nm_state_on s
  | Enable_in_dialogs => nm_enable_in_dialogs s
  | Invert_image => nm_invert_image s
  | Invert_latex => nm_invert_latex s
  | Transparent_latex => nm_transparent_latex s
  | Color_bl => nm_color_bl s
  | Color_td => nm_color_td s
  end.

Definition set_setting (v : SettingVar) (x : pyval) (s : Settings) : Settings :=
  {| nm_state_on := match v with State_on => x | _ => nm_state_on s end;
     nm_enable_in_dialogs :=
       match v with Enable_in_dialogs => x | _ => nm_enable_in_dialogs s end;
     nm_invert_image := match v with Invert_image => x | _ => nm_invert_image s end;
     nm_invert_latex := match v with Invert_latex => x | _ => nm_invert_latex s end;
     nm_transparent_latex :=
       match v with Transparent_latex => x | _ => nm_transparent_latex s end;
     nm_color_bl := match v with Color_bl => x | _ => nm_color_bl s end;
     nm_color_td := match v with Color_td => x | _ => nm_color_td s end |}.

(** The key of [mw.pm.profile] under which a setting is stored. *)
Definition profile_key (v : SettingVar) : string :=
  match v with
  | State_on => "nm_state_on"
  | Enable_in_dialogs => "nm_enable_in_dialogs"
  | Invert_image => "nm_invert_image"
  | Invert_latex => "nm_invert_latex"
  | Transparent_latex => "nm_transparent_latex"
  | Color_bl => "nm_color_bl"
  | Color_td => "nm_color_td"
  end.

(** The second argument of [mw.pm.profile.get] in [nm_load]. *)
Definition load_default (v : SettingVar) : pyval :=
  match v with
  | State_on => PyBool true
  | Invert_image => PyBool false
  | Invert_latex => PyBool false
  | Color_bl => PyStr (color1 theme)
  | Color_td => PyStr (color7 theme)
  | Enable_in_dialogs => PyBool true
  | Transparent_latex => PyBool false
  end.

(** [global v; v = x] *)
Definition assign (v : SettingVar) (x : pyval) : Py unit :=
  modify (with_settings (set_setting v x)).

(** [mw.pm.profile[key] = v] for the current value of the global [v]. *)
Definition profile_store (v : SettingVar) : Py unit :=
  modify (fun w => with_profile (<[profile_key v := get_setting v (settings w)]> (profile w)) w).

(** [v = mw.pm.profile.get(key, default)] *)
Definition profile_fetch (v : SettingVar) : Py unit :=
  x <- gets (fun w => dict_get (profile w) (profile_key v) (load_default v)) ;;
  assign v x.

(** [nm_save] (lines 246-257) *)
Definition nm_save : Py unit :=
  profile_store State_on ;;;
  profile_store Enable_in_dialogs ;;;
  profile_store Invert_image ;;;
  profile_store Invert_latex ;;;
  profile_store Transparent_latex ;;;
  profile_store Color_bl ;;;
  profile_store Color_td.

(** *** Latex commands *)

Inductive LatexVar : Type := PngCommands | SvgCommands | LatexCmds.

Definition get_latex (v : LatexVar) (l : Latex) : list (list string) :=
  match v with
  | PngCommands => pngCommands l
  | SvgCommands => svgCommands l
  | LatexCmds => latexCmds l
  end.

Definition set_latex (v : LatexVar) (x : list (list string)) (l : Latex) : Latex :=
  {| pngCommands := match v with PngCommands => x | _ => pngCommands l end;
     svgCommands := match v with SvgCommands => x | _ => svgCommands l end;
     latexCmds := match v with LatexCmds => x | _ => latexCmds l end |}.

(** The command written by [nm_make_latex_transparent]. *)
Definition transparent_dvipng : list string :=
  ["dvipng"; "-D"; "200"; "-T"; "tight"; "-bg"; "Transparent"; "-z"; "9";
   "tmp.dvi"; "-o"; "tmp.png"].

(** [command[i] = x] on a list object: in range it replaces the element in
    place, out of range it raises. *)
Definition list_setitem (v : LatexVar) (i : nat) (x : list string) : Py unit :=
  l <- gets (fun w => get_latex v (latex w)) ;;
  if Nat.ltb i (length l)
  then modify (fun w => with_latex (set_latex v (<[i := x]> l) (latex w)) w)
  else raise IndexError.

Fixpoint for_each {A} (l : list A) (body : A -> Py unit) : Py unit :=
  match l with
  | [] => ret tt
  | x :: l' => body x ;;; for_each l' body
  end.

(** [nm_make_latex_transparent] (lines 169-195) *)
Definition nm_make_latex_transparent : Py unit :=
  let commands :=
    if startswith appVersion "2.1"
    then ([] ++ [PngCommands; SvgCommands])%list
    else ([] ++ [LatexCmds])%list in
  for_each commands (fun command => list_setitem command 1 transparent_dvipng).

(** [nm_tlatex] (lines 158-166) *)
Definition nm_tlatex : Py unit :=
  old <- gets (fun w => nm_transparent_latex (settings w)) ;;
  assign Transparent_latex (PyBool (negb (truthy old))) ;;;
  now <- gets (fun w => nm_transparent_latex (settings w)) ;;
  when (truthy now) nm_make_latex_transparent.

(** *** Styles *)

(** [nm_append_to_styles] (lines 558-599); the keyword arguments in the
    order of the signature. *)
Definition nm_append_to_styles
    (bottom body top decks other_bottoms overview menu waiting_screen : string)
    : Py unit :=
  invert_image <- gets (fun w => nm_invert_image (settings w)) ;;
  let body := if truthy invert_image then body +:+ nm_css_iimage else body in
  invert_latex <- gets (fun w => nm_invert_latex (settings w)) ;;
  let body := if truthy invert_latex then body +:+ nm_css_ilatex else body in
  modify (fun w =>
    let d := defaults w in
    let s := styles w in
    with_styles
      {| mw_styleSheet := nm_default_css_menu d +:+ menu;
         toolbar_css := nm_default_css_top d +:+ top;
         reviewer_bottomCSS := nm_default_css_bottom d +:+ bottom;
         reviewer_css :=
           if negb (startswith appVersion "2.1")
           then nm_default_css_body d +:+ body +:+ nm_css_scrollbar
           else reviewer_css s;
         reviewer_revHtml :=
           if negb (startswith appVersion "2.1")
           then reviewer_revHtml s
           else nm_default_reviewer_html d +:+ "<style>" +:+ body +:+ "</style>";
         deckBrowser_css := nm_default_css_decks d +:+ decks;
         deckBrowser_bottom_css := nm_default_css_decks_bottom d +:+ other_bottoms;
         overview_css := nm_default_css_overview d +:+ overview;
         overview_bottom_css := nm_default_css_overview_bottom d +:+ other_bottoms;
         sharedCSS := nm_default_css_waiting_screen d +:+ waiting_screen |} w) ;;;
  state <- gets mw_state ;;
  when (String.eqb state "review") (modify (with_call reviewer_initWeb)) ;;;
  when (String.eqb state "deckBrowser") (modify (with_call deckBrowser_refresh)) ;;;
  when (String.eqb state "overview") (modify (with_call overview_refresh)) ;;;
  modify (with_call toolbar_draw).

(** [nm_on] (lines 602-631) *)
Definition nm_on : Py bool :=
  loaded <- gets nm_profile_loaded ;;
  if negb loaded then
    modify (with_call (showWarning NM_ERROR_NO_PROFILE None)) ;;;
    ret false
  else
    try_except
      (assign State_on (PyBool true) ;;;
       modify (with_browser_colours "#D9B2E9" "#FFFFB2") ;;;
       card <- nm_card_color_css ;;
       color_map <- nm_css_custom_color_map ;;
       decks_body <- nm_body_color_css ;;
       overview_body <- nm_body_color_css ;;
       waiting_body <- nm_body_color_css ;;
       nm_append_to_styles
         nm_css_bottom
         (nm_css_body +:+ card +:+ color_map)
         nm_css_top
         (nm_css_decks +:+ decks_body)
         nm_css_other_bottoms
         (nm_css_overview +:+ overview_body)
         nm_css_menu
         (nm_css_buttons +:+ waiting_body) ;;;
       setChecked Menu_switch true ;;;
       ret true)
      (fun e =>
         modify (with_call (showWarning NM_ERROR_SWITCH (Some e))) ;;;
         ret false).

(** [nm_off] (lines 634-653) *)
Definition nm_off : Py bool :=
  loaded <- gets nm_profile_loaded ;;
  if negb loaded then
    modify (with_call (showWarning NM_ERROR_NO_PROFILE None)) ;;;
    ret false
  else
    try_except
      (assign State_on (PyBool false) ;;;
       modify (fun w =>
         with_browser_colours (DEFLAULT_COLOUR_MARKED (defaults w))
                              (DEFLAULT_COLOUR_SUSPENDED (defaults w)) w) ;;;
       nm_append_to_styles "" "" "" "" "" "" "" "" ;;;
       setChecked Menu_switch false ;;;
       ret true)
      (fun e =>
         modify (with_call (showWarning NM_ERROR_SWITCH (Some e))) ;;;
         ret false).

(** [nm_load] (lines 260-295) *)
Definition nm_load : Py unit :=
  profile_fetch State_on ;;;
  profile_fetch Invert_image ;;;
  profile_fetch Invert_latex ;;;
  profile_fetch Color_bl ;;;
  profile_fetch Color_td ;;;
  profile_fetch Enable_in_dialogs ;;;
  profile_fetch Transparent_latex ;;;
  nm_refresh_css_custom_colors_string ;;;
  modify (with_profile_loaded true) ;;;
  state_on <- gets (fun w => nm_state_on (settings w)) ;;
  when (truthy state_on) (_ <- nm_on ;; ret tt) ;;;
  invert_image <- gets (fun w => nm_invert_image (settings w)) ;;
  when (truthy invert_image) (setChecked Menu_iimage true) ;;;
  invert_latex <- gets (fun w => nm_invert_latex (settings w)) ;;
  when (truthy invert_latex) (setChecked Menu_ilatex true) ;;;
  enable_in_dialogs <- gets (fun w => nm_enable_in_dialogs (settings w)) ;;
  when (truthy enable_in_dialogs) (setChecked Menu_endial true) ;;;
  transparent_latex <- gets (fun w => nm_transparent_latex (settings w)) ;;
  when (truthy transparent_latex)
    (setChecked Menu_tlatex true ;;; nm_make_latex_transparent).

(** [nm_setup_menu] (lines 701-773), as far as it assigns globals and fills
    the menus: only the switch and the dialogs action are created, the
    other three assignments are commented out in the source. *)
Definition nm_setup_menu : Py unit :=
  view <- gets addon_view_menu ;;
  let view := match view with Some v => v | None => [] end in
  modify (with_menus (Some (view ++ ["&Night Mode"])%list) []) ;;;
  modify (with_actions (set_action Menu_switch (Some (new_QAction "&Enable night mode" true)))) ;;;
  modify (with_actions (set_action Menu_endial (Some (new_QAction "Enable in &dialogs" true)))) ;;;
  modify (fun w =>
    with_menus (addon_view_menu w)
      [Action "&Enable night mode"; Action "Enable in &dialogs"; Separator;
       Separator;
       Action "Set &background color"; Action "Set &text color";
       Action "&Reset colors"; Separator; Action "&About..."] w).

(** [nm_onload] (lines 522-555): the hooks and the menu.  The [wrap] calls
    patch classes of the host's dialogs and change nothing of the world
    modelled here. *)
Definition nm_onload : Py unit :=
  nm_refresh_css_custom_colors_string ;;;
  modify (with_call (addHook "unloadProfile" "nm_save")) ;;;
  modify (with_call (addHook "profileLoaded" "nm_load")) ;;;
  modify (with_call (addHook "showQuestion" "take_care_of_night_class")) ;;;
  modify (with_call (addHook "showAnswer" "take_care_of_night_class")) ;;;
  nm_setup_menu.

(** The assignments the module performs when it is imported (lines 76-127
    and 1072), over the host it finds: the add-on's globals get their first
    values and the host's styles are saved. *)
Definition module_globals (host : World) : World :=
  {| settings :=
       {| nm_state_on := PyBool false; nm_enable_in_dialogs := PyBool true;
          nm_invert_image := PyBool false; nm_invert_latex := PyBool false;
          nm_transparent_latex := PyBool false;
          nm_color_bl := PyStr nm_color_bl_init;
          nm_color_td := PyStr nm_color_td_init |};
     nm_profile_loaded := false;
     actions :=
       {| nm_menu_switch := None; nm_menu_iimage := None; nm_menu_ilatex := None;
          nm_menu_endial := None; nm_menu_tlatex := None |};
     nm_css_custom_colors := nm_css_custom_colors_init;
     nm_custom_color_map :=
       [("#007700", "#30DC16"); ("#000099", "#00BBFF");
        ("#C35617", "#D46728"); ("#00a", "#00BBFF")];
     defaults :=
       {| nm_default_css_menu := mw_styleSheet (styles host);
          nm_default_css_top := toolbar_css (styles host);
          nm_default_css_body :=
            if negb (startswith appVersion "2.1")
            then reviewer_css (styles host) else "";
          nm_default_reviewer_html :=
            if negb (startswith appVersion "2.1")
            then "" else reviewer_revHtml (styles host);
          nm_default_css_bottom := reviewer_bottomCSS (styles host);
          nm_default_css_decks := deckBrowser_css (styles host);
          nm_default_css_decks_bottom := deckBrowser_bottom_css (styles host);
          nm_default_css_overview := overview_css (styles host);
          nm_default_css_overview_bottom := overview_bottom_css (styles host);
          nm_default_css_waiting_screen := sharedCSS (styles host);
          DEFLAULT_COLOUR_MARKED := COLOUR_MARKED host;
          DEFLAULT_COLOUR_SUSPENDED := COLOUR_SUSPENDED host |};
     styles := styles host;
     COLOUR_MARKED := COLOUR_MARKED host;
     COLOUR_SUSPENDED := COLOUR_SUSPENDED host;
     mw_state := mw_state host;
     profile := profile host;
     latex := latex host;
     addon_view_menu := addon_view_menu host;
     nm_menu := nm_menu host;
     calls := calls host |}.

(** Importing the module: the assignments, then [nm_onload()] (line 1367). *)
Definition import_module (host : World) : outcome unit * World :=
  nm_onload (module_globals host).

(** ** Properties of version 1.x *)

(** *** Running statements *)

Lemma run_ret {A} (a : A) (w : World) : ret a w = (Returned a, w).
Proof. reflexivity. Qed.

Lemma run_gets {A B} (f : World -> A) (k : A -> Py B) (w : World) :
  (x <- gets f ;; k x) w = k (f w) w.
Proof. reflexivity. Qed.

Lemma run_modify {B} (f : World -> World) (k : unit -> Py B) (w : World) :
  (x <- modify f ;; k x) w = k tt (f w).
Proof. reflexivity. Qed.

Lemma run_raise {A B} (e : exn) (k : A -> Py B) (w : World) :
  (x <- raise e ;; k x) w = (Raised e, w).
Proof. reflexivity. Qed.

Lemma run_bind {A B} (m : Py A) (k : A -> Py B) (w : World) :
  bind m k w =
  match m w with
  | (Returned a, w') => k a w'
  | (Raised e, w') => (Raised e, w')
  end.
Proof. reflexivity. Qed.

Lemma run_bind_assoc {A B C} (m : Py A) (k : A -> Py B) (h : B -> Py C) (w : World) :
  (y <- (x <- m ;; k x) ;; h y) w = (x <- m ;; y <- k x ;; h y) w.
Proof. unfold bind. destruct (m w) as [[a|e] w']; reflexivity. Qed.

Lemma try_modify {A} (f : World -> World) (m : Py A) (h : exn -> Py A) (w : World) :
  try_except (modify f ;;; m) h w = try_except m h (f w).
Proof. reflexivity. Qed.

(** *** Frame conditions: a statement keeps a part of the world *)

Definition keeps {A B} (part : World -> B) (m : Py A) : Prop :=
  forall w, part (exec m w) = part w.

Section Keeps.
Context {B : Type} (part : World -> B).

Lemma keeps_ret {A} (a : A) : keeps part (ret a).
Proof. intros w. reflexivity. Qed.

Lemma keeps_raise {A} (e : exn) : keeps part (@raise A e).
Proof. intros w. reflexivity. Qed.

Lemma keeps_gets {A} (f : World -> A) : keeps part (gets f).
Proof. intros w. reflexivity. Qed.

Lemma keeps_modify (f : World -> World) :
  (forall w, part (f w) = part w) -> keeps part (modify f).
Proof. intros H w. apply H. Qed.

Lemma keeps_bind {A C} (m : Py A) (k : A -> Py C) :
  keeps part m -> (forall a, keeps part (k a)) -> keeps part (x <- m ;; k x).
Proof.
  intros Hm Hk w. unfold exec, bind. specialize (Hm w). unfold exec in Hm.
  destruct (m w) as [[a|e] w']; cbn [snd] in *.
  - rewrite <- Hm. apply Hk.
  - exact Hm.
Qed.

Lemma keeps_try_except {A} (m : Py A) (h : exn -> Py A) :
  keeps part m -> (forall e, keeps part (h e)) -> keeps part (try_except m h).
Proof.
  intros Hm Hh w. unfold exec, try_except. specialize (Hm w). unfold exec in Hm.
  destruct (m w) as [[a|e] w']; cbn [snd] in *.
  - exact Hm.
  - rewrite <- Hm. apply Hh.
Qed.

Lemma keeps_when (c : bool) (m : Py unit) : keeps part m -> keeps part (when c m).
Proof. intros Hm. destruct c; [exact Hm | apply keeps_ret]. Qed.

Lemma keeps_if {A} (c : bool) (m1 m2 : Py A) :
  keeps part m1 -> keeps part m2 -> keeps part (if c then m1 else m2).
Proof. destruct c; auto. Qed.

Lemma keeps_for_each {A} (l : list A) (body : A -> Py unit) :
  (forall x, keeps part (body x)) -> keeps part (for_each l body).
Proof.
  intros Hb. induction l as [|x l IH]; cbn [for_each].
  - apply keeps_ret.
  - apply keeps_bind; [apply Hb | intros _; exact IH].
Qed.

Lemma keeps_str_add (s : string) (v : pyval) : keeps part (str_add s v).
Proof. destruct v; cbn [str_add]; (apply keeps_ret || apply keeps_raise). Qed.
End Keeps.

(** The two statements that branch on the world they read. *)

Lemma setChecked_keeps {B} (part : World -> B) v b :
  (forall f w, part (with_actions f w) = part w) -> keeps part (setChecked v b).
Proof.
  intros H w. unfold exec, setChecked. rewrite run_gets.
  destruct (get_action v (actions w)); [apply H | reflexivity].
Qed.

Lemma list_setitem_keeps {B} (part : World -> B) v i x :
  (forall l w, part (with_latex l w) = part w) -> keeps part (list_setitem v i x).
Proof.
  intros H w. unfold exec, list_setitem. rewrite run_gets.
  destruct (Nat.ltb i _); [apply H | reflexivity].
Qed.

(** [keeps_auto] descends into a statement and closes the goal when no
    update on the way writes the part. *)
Ltac keeps_field := apply keeps_modify; intros ?; reflexivity.

Ltac keeps_step :=
  first
    [ apply keeps_ret | apply keeps_raise | apply keeps_gets
    | apply keeps_str_add | keeps_field
    | simple apply setChecked_keeps; intros; reflexivity
    | simple apply list_setitem_keeps; intros; reflexivity
    | simple apply keeps_bind | simple apply keeps_try_except
    | simple apply keeps_when | simple apply keeps_if
    | simple apply keeps_for_each
    | progress unfold nm_make_css_custom_colors_string,
        nm_refresh_css_custom_colors_string, nm_css_custom_color_map,
        nm_card_color_css, nm_body_color_css, assign, profile_store,
        profile_fetch, nm_make_latex_transparent, nm_append_to_styles,
        nm_on, nm_off, nm_save, nm_load, nm_tlatex, nm_setup_menu, nm_onload ].

Ltac keeps_auto := repeat (intros; keeps_step).

Lemma keeps_at {A B} (part : World -> B) (m : Py A) (w : World) :
  keeps part m -> part (snd (m w)) = part w.
Proof. intros H. apply H. Qed.

(** What follows a statement does not matter for a part it keeps. *)
Lemma bind_keeps_after {A B C} (part : World -> B) (m : Py A) (k : A -> Py C) (w : World) :
  (forall a, keeps part (k a)) ->
  part (snd ((x <- m ;; k x) w)) = part (snd (m w)).
Proof.
  intros Hk. unfold bind. destruct (m w) as [[a|e] w']; cbn [snd].
  - apply Hk.
  - reflexivity.
Qed.

(** *** The settings: [nm_save], [nm_load] *)

(** [nm_on] assigns [nm_state_on = True] once the profile is loaded, and
    no other setting. *)
Lemma nm_on_settings (w : World) :
  settings (exec nm_on w) =
  if nm_profile_loaded w
  then set_setting State_on (PyBool true) (settings w)
  else settings w.
Proof.
  unfold exec, nm_on. rewrite run_gets.
  destruct (nm_profile_loaded w); cbn [negb]; [|reflexivity].
  unfold assign. rewrite try_modify.
  rewrite (keeps_at settings); [reflexivity|].
  keeps_auto.
Qed.

Lemma nm_off_settings (w : World) :
  settings (exec nm_off w) =
  if nm_profile_loaded w
  then set_setting State_on (PyBool false) (settings w)
  else settings w.
Proof.
  unfold exec, nm_off. rewrite run_gets.
  destruct (nm_profile_loaded w); cbn [negb]; [|reflexivity].
  unfold assign. rewrite try_modify.
  rewrite (keeps_at settings); [reflexivity|].
  keeps_auto.
Qed.

(** The settings as the seven [profile.get] calls of [nm_load] read them. *)
Definition fetched (p : gmap string pyval) (v : SettingVar) : pyval :=
  dict_get p (profile_key v) (load_default v).

Definition loaded_settings (p : gmap string pyval) : Settings :=
  {| nm_state_on := fetched p State_on;
     nm_enable_in_dialogs := fetched p Enable_in_dialogs;
     nm_invert_image := fetched p Invert_image;
     nm_invert_latex := fetched p Invert_latex;
     nm_transparent_latex := fetched p Transparent_latex;
     nm_color_bl := fetched p Color_bl;
     nm_color_td := fetched p Color_td |}.

Lemma run_profile_fetch {B} (v : SettingVar) (k : unit -> Py B) (w : World) :
  (x <- profile_fetch v ;; k x) w =
  k tt (with_settings (set_setting v (fetched (profile w) v)) w).
Proof. reflexivity. Qed.

(** After [nm_load] the settings are the fetched ones, except that a truthy
    [nm_state_on] has been through the assignment in [nm_on]. *)
Lemma nm_load_settings (w : World) :
  let s := loaded_settings (profile w) in
  settings (exec nm_load w) = s \/
  (truthy (nm_state_on s) = true /\
   settings (exec nm_load w) = set_setting State_on (PyBool true) s).
Proof.
  intros s. unfold exec, nm_load.
  rewrite !run_profile_fetch.
  match goal with |- context [bind nm_refresh_css_custom_colors_string ?k ?w1] =>
    set (W := w1); set (K := k) end.
  assert (HW : settings W = s) by reflexivity.
  assert (Hr : settings (snd (nm_refresh_css_custom_colors_string W)) = settings W)
    by (apply keeps_at; keeps_auto).
  rewrite (run_bind nm_refresh_css_custom_colors_string K W).
  destruct (nm_refresh_css_custom_colors_string W) as [[[]|e] w2]; cbn [snd] in *.
  2:{ left. congruence. }
  subst K. cbv beta. rewrite run_modify, run_gets.
  assert (Hs : settings (with_profile_loaded true w2) = s) by (rewrite <- HW, <- Hr; reflexivity).
  rewrite Hs.
  destruct (truthy (nm_state_on s)) eqn:T; cbn [when].
  - right. split; [reflexivity|].
    rewrite (bind_keeps_after settings).
    2:{ intros _. keeps_auto. }
    rewrite (bind_keeps_after settings).
    2:{ intros _. keeps_auto. }
    change (settings (exec nm_on (with_profile_loaded true w2)) = set_setting State_on (PyBool true) s).
    rewrite nm_on_settings. cbn [nm_profile_loaded with_profile_loaded]. rewrite Hs. reflexivity.
  - left. rewrite (keeps_at settings); [exact Hs|].
    keeps_auto.
Qed.

Lemma set_state_on_bool (s : Settings) :
  is_pybool (nm_state_on s) = true -> truthy (nm_state_on s) = true ->
  set_setting State_on (PyBool true) s = s.
Proof.
  destruct s as [st ? ? ? ? ? ?]. cbn [nm_state_on].
  destruct st as [|[]| |]; cbn [is_pybool truthy]; intros H1 H2;
    first [discriminate | reflexivity].
Qed.

(** [nm_save] stores every setting under its key. *)
Lemma nm_save_profile (w : World) (v : SettingVar) :
  profile (exec nm_save w) !! profile_key v = Some (get_setting v (settings w)).
Proof.
  unfold exec, nm_save, profile_store.
  rewrite !run_modify. cbn [snd modify profile with_profile settings].
  destruct v; cbn [profile_key get_setting]; simplify_map_eq; reflexivity.
Qed.

Lemma nm_save_fetched (w : World) (v : SettingVar) :
  fetched (profile (exec nm_save w)) v = get_setting v (settings w).
Proof. unfold fetched, dict_get. rewrite nm_save_profile. reflexivity. Qed.

Lemma loaded_settings_nm_save (w : World) :
  loaded_settings (profile (exec nm_save w)) = settings w.
Proof.
  unfold loaded_settings. rewrite !nm_save_fetched.
  destruct (settings w); reflexivity.
Qed.

Lemma get_setting_set_state_on (v : SettingVar) (x : pyval) (s : Settings) :
  v <> State_on -> get_setting v (set_setting State_on x s) = get_setting v s.
Proof. destruct v, s; intros H; first [contradiction H; reflexivity | reflexivity]. Qed.

(** C1. Saving and loading is a round trip across a session boundary.
    [nm_save] writes each of the seven settings [nm_state_on],
    [nm_enable_in_dialogs], [nm_invert_image], [nm_invert_latex],
    [nm_transparent_latex], [nm_color_bl] and [nm_color_td] under its
    profile key, and [nm_load], run in any world [w'] that holds the profile
    [nm_save] left (a later session, whatever its globals are at that
    point, or the same one), reads each back: the six settings other than
    [nm_state_on] are exactly the values they had before [nm_save],
    [nm_state_on] has the same truth value, and when [nm_state_on] held a
    Python [bool] (the only values the module ever assigns to it) all seven
    settings are exactly as before, whatever [nm_load] returns or raises on
    the way. *)
Theorem nm_save_nm_load_roundtrip (w w' : World) :
  profile w' = profile (exec nm_save w) ->
  (forall v, profile w' !! profile_key v = Some (get_setting v (settings w))) /\
  (forall v, v <> State_on ->
     get_setting v (settings (exec nm_load w')) = get_setting v (settings w)) /\
  truthy (nm_state_on (settings (exec nm_load w'))) = truthy (nm_state_on (settings w)) /\
  (is_pybool (nm_state_on (settings w)) = true ->
   settings (exec nm_load w') = settings w).
Proof.
  intros Hp. split.
  { intros v. rewrite Hp. apply nm_save_profile. }
  pose proof (nm_load_settings w') as H. cbv zeta in H.
  rewrite Hp, loaded_settings_nm_save in H.
  destruct H as [H | [T H]]; rewrite H.
  - split; [reflexivity|]. split; reflexivity.
  - split; [|split].
    + intros v Hv. apply get_setting_set_state_on, Hv.
    + rewrite T. destruct (settings w); reflexivity.
    + intros Hb. apply set_state_on_bool; assumption.
Qed.

(** C3. Defaults of [nm_load]: when the value stored under ["nm_state_on"],
    if any, is a Python [bool], every setting is after [nm_load] the value
    stored under its key, and for an absent key its default: [True] for
    [nm_state_on] and [nm_enable_in_dialogs], [False] for [nm_invert_image],
    [nm_invert_latex] and [nm_transparent_latex], [theme.color1] for
    [nm_color_bl] and [theme.color7] for [nm_color_td]. *)
Theorem nm_load_defaults (w : World) (v : SettingVar) :
  (forall x, profile w !! "nm_state_on" = Some x -> is_pybool x = true) ->
  get_setting v (settings (exec nm_load w)) =
  match profile w !! profile_key v with
  | Some x => x
  | None =>
      match v with
      | State_on => PyBool true
      | Invert_image => PyBool false
      | Invert_latex => PyBool false
      | Color_bl => PyStr (color1 theme)
      | Color_td => PyStr (color7 theme)
      | Enable_in_dialogs => PyBool true
      | Transparent_latex => PyBool false
      end
  end.
Proof.
  intros Hb.
  assert (Hf : get_setting v (loaded_settings (profile w)) =
               match profile w !! profile_key v with
               | Some x => x
               | None => load_default v
               end).
  { destruct v; cbn [get_setting loaded_settings nm_state_on nm_enable_in_dialogs
      nm_invert_image nm_invert_latex nm_transparent_latex nm_color_bl nm_color_td];
      unfold fetched, dict_get; destruct (profile w !! _); reflexivity. }
  assert (Hd : (match profile w !! profile_key v with
               | Some x => x
               | None => load_default v
               end) =
               match profile w !! profile_key v with
               | Some x => x
               | None =>
                   match v with
                   | State_on => PyBool true
                   | Invert_image => PyBool false
                   | Invert_latex => PyBool false
                   | Color_bl => PyStr (color1 theme)
                   | Color_td => PyStr (color7 theme)
                   | Enable_in_dialogs => PyBool true
                   | Transparent_latex => PyBool false
                   end
               end).
  { destruct (profile w !! profile_key v); [reflexivity | destruct v; reflexivity]. }
  rewrite <- Hd, <- Hf.
  destruct (nm_load_settings w) as [H | [T H]]; rewrite H; [reflexivity|].
  rewrite set_state_on_bool; [reflexivity | | exact T].
  cbn [loaded_settings nm_state_on]. unfold fetched, dict_get. cbn [profile_key load_default].
  destruct (profile w !! "nm_state_on") as [x|] eqn:E; cbn [default]; [apply Hb; reflexivity | reflexivity].
Qed.

(** *** Switching without a loaded profile *)

Lemma nm_on_not_loaded (w : World) :
  nm_profile_loaded w = false ->
  nm_on w = (Returned false, with_call (showWarning NM_ERROR_NO_PROFILE None) w).
Proof. intros H. unfold nm_on. rewrite run_gets, H. reflexivity. Qed.

Lemma nm_off_not_loaded (w : World) :
  nm_profile_loaded w = false ->
  nm_off w = (Returned false, with_call (showWarning NM_ERROR_NO_PROFILE None) w).
Proof. intros H. unfold nm_off. rewrite run_gets, H. reflexivity. Qed.

(** C8. Without a loaded profile [nm_on] and [nm_off] only warn: when
    [nm_profile_loaded] is [False], each of them calls
    [showWarning(NM_ERROR_NO_PROFILE)] and returns [False]; [nm_state_on] and
    the other settings, every style attribute and the browser's marked and
    suspended colours are as before the call. *)
Theorem nm_on_nm_off_profile_not_loaded (w : World) :
  nm_profile_loaded w = false ->
  let warned := with_call (showWarning NM_ERROR_NO_PROFILE None) w in
  (nm_on w = (Returned false, warned) /\ nm_off w = (Returned false, warned)) /\
  settings warned = settings w /\
  styles warned = styles w /\
  COLOUR_MARKED warned = COLOUR_MARKED w /\
  COLOUR_SUSPENDED warned = COLOUR_SUSPENDED w /\
  calls warned = (calls w ++ [showWarning NM_ERROR_NO_PROFILE None])%list.
Proof.
  intros H warned. split; [split|repeat split].
  - apply nm_on_not_loaded, H.
  - apply nm_off_not_loaded, H.
Qed.

(** *** Strings *)

Lemma str_append_cons (c : ascii) (a b : string) :
  String c a +:+ b = String c (a +:+ b).
Proof. reflexivity. Qed.

Lemma str_append_nil_r (s : string) : s +:+ "" = s.
Proof.
  induction s as [|c s IH]; [reflexivity|].
  rewrite str_append_cons, IH. reflexivity.
Qed.

Lemma str_append_assoc (a b c : string) : (a +:+ b) +:+ c = a +:+ (b +:+ c).
Proof.
  induction a as [|x a IH]; [reflexivity|].
  rewrite !str_append_cons, IH. reflexivity.
Qed.

(** [sub] occurs in [s]. *)
Definition occurs (sub s : string) : Prop :=
  exists before after, s = before +:+ sub +:+ after.

(** *** The styles written by [nm_append_to_styles] *)

(** The attribute that carries the review screen's body style: the
    reviewer's [_css] before Anki 2.1, its [_revHtml] from 2.1 on. *)
Definition review_body (s : Styles) : string :=
  if negb (startswith appVersion "2.1") then reviewer_css s else reviewer_revHtml s.

Definition default_review_body (d : Defaults) : string :=
  if negb (startswith appVersion "2.1")
  then nm_default_css_body d
  else nm_default_reviewer_html d.

(** The rules that the inversion preferences add to a body style. *)
Definition inversion_rules (s : Settings) : string :=
  (if truthy (nm_invert_image s) then nm_css_iimage else "") +:+
  (if truthy (nm_invert_latex s) then nm_css_ilatex else "").

(** The body style around a given body. *)
Definition styled_body (d : Defaults) (body : string) : string :=
  if negb (startswith appVersion "2.1")
  then nm_default_css_body d +:+ body +:+ nm_css_scrollbar
  else nm_default_reviewer_html d +:+ "<style>" +:+ body +:+ "</style>".

(** The other attributes that [nm_on] and [nm_off] write, and the saved
    values they are built on. *)
Definition style_attributes (w : World) : list string :=
  [mw_styleSheet (styles w); toolbar_css (styles w); reviewer_bottomCSS (styles w);
   deckBrowser_css (styles w); deckBrowser_bottom_css (styles w);
   overview_css (styles w); overview_bottom_css (styles w); sharedCSS (styles w);
   COLOUR_MARKED w; COLOUR_SUSPENDED w].

Definition saved_attributes (d : Defaults) : list string :=
  [nm_default_css_menu d; nm_default_css_top d; nm_default_css_bottom d;
   nm_default_css_decks d; nm_default_css_decks_bottom d;
   nm_default_css_overview d; nm_default_css_overview_bottom d;
   nm_default_css_waiting_screen d;
   DEFLAULT_COLOUR_MARKED d; DEFLAULT_COLOUR_SUSPENDED d].

(** The host's original styles are in place. *)
Definition original_styles_in_place (w : World) : Prop :=
  style_attributes w = saved_attributes (defaults w) /\
  review_body (styles w) = default_review_body (defaults w).

(** What [nm_on] and [nm_off] can change of the look of the host. *)
Definition look (w : World) : Styles * string * string :=
  (styles w, COLOUR_MARKED w, COLOUR_SUSPENDED w).

Lemma try_keeps_after {A B} (part : World -> B) (m : Py A) (h : exn -> Py A) (w : World) :
  (forall e, keeps part (h e)) ->
  part (snd (try_except m h w)) = part (snd (m w)).
Proof.
  intros Hh. unfold try_except. destruct (m w) as [[a|e] w']; cbn [snd].
  - reflexivity.
  - apply Hh.
Qed.

Lemma body_with_inversion (s : Settings) (body : string) :
  (if truthy (nm_invert_latex s)
   then (if truthy (nm_invert_image s) then body +:+ nm_css_iimage else body) +:+ nm_css_ilatex
   else (if truthy (nm_invert_image s) then body +:+ nm_css_iimage else body)) =
  body +:+ inversion_rules s.
Proof.
  unfold inversion_rules.
  destruct (truthy (nm_invert_image s)), (truthy (nm_invert_latex s));
    rewrite ?str_append_assoc, ?str_append_nil_r; reflexivity.
Qed.

Lemma nm_append_to_styles_look
    (bottom body top decks other_bottoms overview menu waiting_screen : string)
    (w : World) :
  let d := defaults w in
  let w' := exec (nm_append_to_styles bottom body top decks other_bottoms
                    overview menu waiting_screen) w in
  style_attributes w' =
    [nm_default_css_menu d +:+ menu; nm_default_css_top d +:+ top;
     nm_default_css_bottom d +:+ bottom; nm_default_css_decks d +:+ decks;
     nm_default_css_decks_bottom d +:+ other_bottoms;
     nm_default_css_overview d +:+ overview;
     nm_default_css_overview_bottom d +:+ other_bottoms;
     nm_default_css_waiting_screen d +:+ waiting_screen;
     COLOUR_MARKED w; COLOUR_SUSPENDED w] /\
  review_body (styles w') = styled_body d (body +:+ inversion_rules (settings w)).
Proof.
  intros d w'.
  assert (Hl : look w' =
    look (with_styles
      {| mw_styleSheet := nm_default_css_menu d +:+ menu;
         toolbar_css := nm_default_css_top d +:+ top;
         reviewer_bottomCSS := nm_default_css_bottom d +:+ bottom;
         reviewer_css :=
           if negb (startswith appVersion "2.1")
           then nm_default_css_body d +:+ (body +:+ inversion_rules (settings w))
                  +:+ nm_css_scrollbar
           else reviewer_css (styles w);
         reviewer_revHtml :=
           if negb (startswith appVersion "2.1")
           then reviewer_revHtml (styles w)
           else nm_default_reviewer_html d +:+ "<style>"
                  +:+ (body +:+ inversion_rules (settings w)) +:+ "</style>";
         deckBrowser_css := nm_default_css_decks d +:+ decks;
         deckBrowser_bottom_css := nm_default_css_decks_bottom d +:+ other_bottoms;
         overview_css := nm_default_css_overview d +:+ overview;
         overview_bottom_css := nm_default_css_overview_bottom d +:+ other_bottoms;
         sharedCSS := nm_default_css_waiting_screen d +:+ waiting_screen |} w)).
  { subst w'. unfold exec, nm_append_to_styles.
    rewrite !run_gets, run_modify.
    rewrite (keeps_at look); [|keeps_auto].
    rewrite <- (body_with_inversion (settings w) body). reflexivity. }
  unfold look in Hl. cbn [styles COLOUR_MARKED COLOUR_SUSPENDED with_styles] in Hl.
  injection Hl as Hs Hm Hsu.
  unfold style_attributes, review_body, styled_body. rewrite Hs, Hm, Hsu.
  cbn [mw_styleSheet toolbar_css reviewer_bottomCSS reviewer_css reviewer_revHtml
       deckBrowser_css deckBrowser_bottom_css overview_css overview_bottom_css sharedCSS].
  split; [reflexivity|].
  destruct (negb (startswith appVersion "2.1")); reflexivity.
Qed.

Lemma occurs_here (sub after : string) : occurs sub (sub +:+ after).
Proof. exists "", after. reflexivity. Qed.

Lemma occurs_append_l (sub a s : string) : occurs sub s -> occurs sub (a +:+ s).
Proof.
  intros (before & after & ->). exists (a +:+ before), after.
  rewrite str_append_assoc. reflexivity.
Qed.

Lemma occurs_append_r (sub s b : string) : occurs sub s -> occurs sub (s +:+ b).
Proof.
  intros (before & after & ->). exists before, (after +:+ b).
  rewrite !str_append_assoc. reflexivity.
Qed.

Lemma occurs_styled_body (sub : string) (d : Defaults) (body : string) :
  occurs sub body -> occurs sub (styled_body d body).
Proof.
  intros H. unfold styled_body.
  destruct (negb (startswith appVersion "2.1")).
  - apply occurs_append_l, occurs_append_r, H.
  - apply occurs_append_l, occurs_append_l, occurs_append_r, H.
Qed.

(** C6 (as the code has it). [nm_append_to_styles] sets the review screen's
    body style to the saved default followed by a wrapped body: from Anki 2.1
    on [nm_default_reviewer_html + '<style>' + body' + '</style>'], before
    2.1 [nm_default_css_body + body' + nm_css_scrollbar()], where [body'] is
    the caller's [body] followed by [nm_css_iimage] exactly when
    [nm_invert_image] is true and then by [nm_css_ilatex] exactly when
    [nm_invert_latex] is true.  So a rule whose flag is true occurs in the
    body style, and with both flags false the wrapped body is the caller's
    argument alone. *)
Theorem nm_append_to_styles_body
    (bottom body top decks other_bottoms overview menu waiting_screen : string)
    (w : World) :
  let styled :=
    review_body (styles (exec (nm_append_to_styles bottom body top decks
                                 other_bottoms overview menu waiting_screen) w)) in
  styled = styled_body (defaults w) (body +:+ inversion_rules (settings w)) /\
  (truthy (nm_invert_image (settings w)) = true -> occurs nm_css_iimage styled) /\
  (truthy (nm_invert_latex (settings w)) = true -> occurs nm_css_ilatex styled) /\
  (truthy (nm_invert_image (settings w)) = false ->
   truthy (nm_invert_latex (settings w)) = false ->
   styled = styled_body (defaults w) body).
Proof.
  intros styled.
  assert (E : styled = styled_body (defaults w) (body +:+ inversion_rules (settings w))).
  { subst styled.
    apply (nm_append_to_styles_look bottom body top decks other_bottoms
             overview menu waiting_screen w). }
  split; [exact E|]. rewrite E. unfold inversion_rules.
  split; [|split].
  - intros ->. apply occurs_styled_body, occurs_append_l, occurs_here.
  - intros ->. apply occurs_styled_body, occurs_append_l, occurs_append_l.
    rewrite <- (str_append_nil_r nm_css_ilatex) at 2. apply occurs_here.
  - intros -> ->. rewrite str_append_nil_r. reflexivity.
Qed.

(** *** Switching on and off *)

Lemma look_attributes (w1 w2 : World) :
  look w1 = look w2 ->
  style_attributes w1 = style_attributes w2 /\
  review_body (styles w1) = review_body (styles w2).
Proof.
  unfold look, style_attributes. intros H. injection H as -> -> ->.
  split; reflexivity.
Qed.

(** With a loaded profile [nm_off] writes the saved values back, and the
    body style that [nm_append_to_styles] builds around an empty body. *)
Lemma nm_off_look (w : World) :
  nm_profile_loaded w = true ->
  style_attributes (exec nm_off w) = saved_attributes (defaults w) /\
  review_body (styles (exec nm_off w)) =
    styled_body (defaults w) (inversion_rules (settings w)).
Proof.
  intros H. unfold exec, nm_off. rewrite run_gets, H. cbn [negb].
  unfold assign. rewrite !try_modify.
  match goal with |- context [try_except _ _ ?w2] => set (W := w2) end.
  assert (Hl : look (snd (try_except
            (nm_append_to_styles "" "" "" "" "" "" "" "";;;
             setChecked Menu_switch false;;; ret true)
            (fun e => modify (with_call (showWarning NM_ERROR_SWITCH (Some e)));;;
                      ret false) W)) =
          look (exec (nm_append_to_styles "" "" "" "" "" "" "" "") W)).
  { rewrite (try_keeps_after look); [|keeps_auto].
    rewrite (bind_keeps_after look); [reflexivity | keeps_auto]. }
  apply look_attributes in Hl. destruct Hl as [Ha Hb].
  rewrite Ha, Hb.
  destruct (nm_append_to_styles_look "" "" "" "" "" "" "" "" W) as [Ha' Hb'].
  rewrite Ha', Hb'. subst W.
  cbn [defaults with_browser_colours with_settings COLOUR_MARKED COLOUR_SUSPENDED].
  rewrite !str_append_nil_r. split; reflexivity.
Qed.

Lemma nm_on_keeps_loaded : keeps nm_profile_loaded nm_on.
Proof. keeps_auto. Qed.

Lemma nm_on_keeps_defaults : keeps defaults nm_on.
Proof. keeps_auto. Qed.

Lemma inversion_rules_set_state_on (x : pyval) (s : Settings) :
  inversion_rules (set_setting State_on x s) = inversion_rules s.
Proof. reflexivity. Qed.

(** C2 (as the code has it). From the host's original styles, [nm_on]
    followed by [nm_off] leaves the main window's style sheet, the toolbar
    CSS, the reviewer's bottom CSS, the deck browser's CSS and bottom CSS,
    the overview's CSS and bottom CSS, [sharedCSS] and the browser's marked
    and suspended colours at the values saved when the add-on was loaded.
    The reviewer's body style is the exception: once the profile is loaded
    it ends as the saved value followed by the wrapper that
    [nm_append_to_styles] adds around the inversion rules ([<style>] and
    [</style>] from 2.1 on, the scrollbar CSS before); without a loaded
    profile nothing is written and it stays the saved value. *)
Theorem nm_on_nm_off_restores (w : World) :
  original_styles_in_place w ->
  let w' := exec nm_off (exec nm_on w) in
  style_attributes w' = saved_attributes (defaults w) /\
  review_body (styles w') =
    if nm_profile_loaded w
    then styled_body (defaults w) (inversion_rules (settings w))
    else default_review_body (defaults w).
Proof.
  intros [Ha Hb] w'. subst w'.
  destruct (nm_profile_loaded w) eqn:L.
  - assert (L1 : nm_profile_loaded (exec nm_on w) = true)
      by (rewrite nm_on_keeps_loaded; exact L).
    destruct (nm_off_look (exec nm_on w) L1) as [Ha' Hb'].
    rewrite Ha', Hb', nm_on_keeps_defaults, nm_on_settings, L.
    rewrite inversion_rules_set_state_on. split; reflexivity.
  - unfold exec. rewrite (nm_on_not_loaded w L). cbn [snd].
    rewrite nm_off_not_loaded by exact L. cbn [snd].
    split; [exact Ha | exact Hb].
Qed.

(** *** Transparent latex *)

(** The command lists that [nm_make_latex_transparent] collects. *)
Definition latex_command_lists : list LatexVar :=
  if startswith appVersion "2.1" then [PngCommands; SvgCommands] else [LatexCmds].

Lemma run_list_setitem {B} (v : LatexVar) (x : list string) (k : unit -> Py B) (w : World) :
  1 < length (get_latex v (latex w)) ->
  (u <- list_setitem v 1 x ;; k u) w =
  k tt (with_latex (set_latex v (<[1 := x]> (get_latex v (latex w))) (latex w)) w).
Proof.
  intros H. unfold list_setitem. rewrite run_bind_assoc, run_gets.
  apply Nat.ltb_lt in H. rewrite H. reflexivity.
Qed.

(** On command lists with a second entry, [nm_make_latex_transparent]
    returns, and that entry is the transparent [dvipng] call afterwards. *)
Lemma nm_make_latex_transparent_overwrites (w : World) :
  (forall v, In v latex_command_lists -> 1 < length (get_latex v (latex w))) ->
  result nm_make_latex_transparent w = Returned tt /\
  forall v, In v latex_command_lists ->
    get_latex v (latex (exec nm_make_latex_transparent w)) =
    <[1 := transparent_dvipng]> (get_latex v (latex w)).
Proof.
  unfold result, exec, nm_make_latex_transparent, latex_command_lists.
  destruct (startswith appVersion "2.1"); intros H; cbn [app for_each].
  - rewrite run_list_setitem by (apply H; left; reflexivity).
    rewrite run_list_setitem by (apply (H SvgCommands); right; left; reflexivity).
    split; [reflexivity|].
    intros v [<-|[<-|[]]]; reflexivity.
  - rewrite run_list_setitem by (apply H; left; reflexivity).
    split; [reflexivity|].
    intros v [<-|[]]; reflexivity.
Qed.

Lemma run_nm_tlatex (w : World) :
  nm_tlatex w =
  when (negb (truthy (nm_transparent_latex (settings w)))) nm_make_latex_transparent
    (with_settings
       (set_setting Transparent_latex
          (PyBool (negb (truthy (nm_transparent_latex (settings w)))))) w).
Proof. reflexivity. Qed.

(** C10. [nm_tlatex] flips [nm_transparent_latex] on every call.  A call
    that turns the flag off does nothing else: the latex command lists stay
    as they are.  A call that turns it on runs [nm_make_latex_transparent]
    on the flipped world, which (on command lists that have a second entry)
    overwrites that entry of every collected list with the transparent
    [dvipng] command.  Hence switching the preference on and off again
    leaves the overwritten commands in place. *)
Theorem nm_tlatex_flag_and_commands (w : World) :
  let old := truthy (nm_transparent_latex (settings w)) in
  let flipped := with_settings (set_setting Transparent_latex (PyBool (negb old))) w in
  nm_transparent_latex (settings (exec nm_tlatex w)) = PyBool (negb old) /\
  (old = true -> nm_tlatex w = (Returned tt, flipped) /\ latex (exec nm_tlatex w) = latex w) /\
  (old = false -> nm_tlatex w = nm_make_latex_transparent flipped) /\
  (old = false ->
   (forall v, In v latex_command_lists -> 1 < length (get_latex v (latex w))) ->
   result nm_tlatex w = Returned tt /\
   (forall v, In v latex_command_lists ->
      get_latex v (latex (exec nm_tlatex w)) =
      <[1 := transparent_dvipng]> (get_latex v (latex w))) /\
   latex (exec nm_tlatex (exec nm_tlatex w)) = latex (exec nm_tlatex w)).
Proof.
  intros old flipped.
  assert (Hflag : nm_transparent_latex (settings (exec nm_tlatex w)) = PyBool (negb old)).
  { unfold exec. rewrite run_nm_tlatex. fold old. fold flipped.
    rewrite (keeps_at settings); [reflexivity|].
    apply keeps_when. keeps_auto. }
  assert (Hoff : forall u, truthy (nm_transparent_latex (settings u)) = true ->
                 latex (exec nm_tlatex u) = latex u).
  { intros u Hu. unfold exec. rewrite run_nm_tlatex, Hu. reflexivity. }
  split; [exact Hflag|]. split; [|split].
  - intros Hold. split; [|apply Hoff; exact Hold].
    rewrite run_nm_tlatex. subst flipped. fold old. rewrite Hold. reflexivity.
  - intros Hold. rewrite run_nm_tlatex. subst flipped. fold old. rewrite Hold. reflexivity.
  - intros Hold Hlen.
    assert (Hrun : nm_tlatex w = nm_make_latex_transparent flipped).
    { rewrite run_nm_tlatex. subst flipped. fold old. rewrite Hold. reflexivity. }
    destruct (nm_make_latex_transparent_overwrites flipped Hlen) as [Hr Hv].
    unfold result, exec in *. rewrite Hrun.
    split; [exact Hr|]. split; [exact Hv|].
    rewrite <- Hrun. apply Hoff.
    unfold exec in Hflag. rewrite Hflag, Hold. reflexivity.
Qed.

(** *** The colour replacement table *)

Definition setting_keys : list string :=
  ["nm_state_on"; "nm_enable_in_dialogs"; "nm_invert_image"; "nm_invert_latex";
   "nm_transparent_latex"; "nm_color_bl"; "nm_color_td"].

Lemma nm_save_other_keys (w : World) (key : string) :
  ~ In key setting_keys ->
  profile (exec nm_save w) !! key = profile w !! key.
Proof.
  intros H. unfold exec, nm_save, profile_store.
  rewrite !run_modify. cbn [snd modify profile with_profile settings profile_key].
  rewrite !lookup_insert_ne; [reflexivity|..];
    intros <-; apply H; cbn; tauto.
Qed.

(** C4 (as the code has it). The colour replacement table is not among the
    persisted preferences.  [nm_save] writes the seven setting keys and no
    other key of the profile, what it writes does not depend on
    [nm_custom_color_map], and neither [nm_save] nor [nm_load] assigns the
    table: it stays what the module's source (or whoever edited it) made
    it. *)
Theorem nm_save_nm_load_skip_color_map (w : World) :
  (forall v, profile (exec nm_save w) !! profile_key v = Some (get_setting v (settings w))) /\
  (forall key, ~ In key setting_keys -> profile (exec nm_save w) !! key = profile w !! key) /\
  (forall m, profile (exec nm_save (with_custom_color_map m w)) = profile (exec nm_save w)) /\
  nm_custom_color_map (exec nm_save w) = nm_custom_color_map w /\
  nm_custom_color_map (exec nm_load w) = nm_custom_color_map w.
Proof.
  split; [apply nm_save_profile|].
  split; [apply nm_save_other_keys|].
  split; [reflexivity|].
  split; [reflexivity|].
  apply (keeps_at nm_custom_color_map). keeps_auto.
Qed.

(** ** The remaining switches of [Night_Mode.py] *)

(** [nm_refresh] (lines 687-698) *)
Definition nm_refresh : Py unit :=
  nm_refresh_css_custom_colors_string ;;;
  state_on <- gets (fun w => nm_state_on (settings w)) ;;
  if truthy state_on
  then _ <- nm_on ;; ret tt
  else _ <- nm_off ;; ret tt.



(** [nm_endial] (lines 676-684) *)
Definition nm_endial : Py unit :=
  enabled <- gets (fun w => nm_enable_in_dialogs (settings w)) ;;
  if truthy enabled
  then assign Enable_in_dialogs (PyBool false)
  else assign Enable_in_dialogs (PyBool true).

(** [nm_color_reset] (lines 222-229) *)
Definition nm_color_reset : Py unit :=
  assign Color_bl (PyStr (color1 theme)) ;;;
  assign Color_td (PyStr (color7 theme)) ;;;
  nm_refresh.

(** [nm_switch] (lines 656-673).  [dialogs] lists, for every entry of the
    host's dialog registry [dialogs._dialogs], whether it holds an open
    instance ([x[1]] is then a dialog object, else [None]); the list that
    [filter(bool, ...)] returns is true when it is not empty. *)
Definition nm_switch (dialogs : list bool) : Py unit :=
  let is_active_dialog := List.filter (fun x => x) dialogs in
  if startswith appVersion "2.0" && negb (Nat.eqb (length is_active_dialog) 0)
  then
    modify (with_call
      (showWarning "Night mode can not be switched when the dialogs are open" None))
  else
    state_on <- gets (fun w => nm_state_on (settings w)) ;;
    if truthy state_on
    then _ <- nm_off ;; ret tt
    else _ <- nm_on ;; ret tt.

(** *** What a statement returns *)

(** [m] never raises. *)
Definition returns {A} (m : Py A) : Prop :=
  forall w, exists a, result m w = Returned a.

Lemma returns_ret {A} (a : A) : returns (ret a).
Proof. intros w. exists a. reflexivity. Qed.

Lemma returns_gets {A} (f : World -> A) : returns (gets f).
Proof. intros w. exists (f w). reflexivity. Qed.

Lemma returns_modify (f : World -> World) : returns (modify f).
Proof. intros w. exists tt. reflexivity. Qed.

Lemma returns_bind {A B} (m : Py A) (k : A -> Py B) :
  returns m -> (forall a, returns (k a)) -> returns (x <- m ;; k x).
Proof.
  intros Hm Hk w. destruct (Hm w) as [a Ha]. unfold result in *.
  rewrite run_bind. destruct (m w) as [[a'|e] w']; cbn [fst] in Ha; [|discriminate].
  apply Hk.
Qed.

Lemma returns_when (c : bool) (m : Py unit) : returns m -> returns (when c m).
Proof. destruct c; [auto | intros _; apply returns_ret]. Qed.

Lemma returns_try_except {A} (m : Py A) (h : exn -> Py A) :
  (forall e, returns (h e)) -> returns (try_except m h).
Proof.
  intros Hh w. unfold result, try_except.
  destruct (m w) as [[a|e] w'].
  - exists a. reflexivity.
  - apply Hh.
Qed.

(** A statement that never raises runs into its continuation. *)
Lemma run_returns {B} (m : Py unit) (k : unit -> Py B) (w : World) :
  returns m -> (x <- m ;; k x) w = k tt (exec m w).
Proof.
  intros Hm. destruct (Hm w) as [[] Ha]. unfold result, exec in *.
  rewrite run_bind. destruct (m w) as [[[]|e] w']; cbn [fst snd] in *;
    [reflexivity | discriminate].
Qed.

Lemma nm_append_to_styles_returns a b c d e f g h :
  returns (nm_append_to_styles a b c d e f g h).
Proof.
  unfold nm_append_to_styles.
  repeat first [ apply returns_bind; [|intros ?] | apply returns_gets
               | apply returns_modify | apply returns_when ].
Qed.

(** The handler of [nm_on] and [nm_off]. *)
Lemma switch_handler_returns (e : exn) :
  returns (modify (with_call (showWarning NM_ERROR_SWITCH (Some e))) ;;; ret false).
Proof. apply returns_bind; [apply returns_modify | intros _; apply returns_ret]. Qed.

Lemma nm_on_returns : returns nm_on.
Proof.
  intros w. unfold result, nm_on. rewrite run_gets.
  destruct (negb (nm_profile_loaded w)).
  - exists false. reflexivity.
  - apply returns_try_except, switch_handler_returns.
Qed.

Lemma nm_off_returns : returns nm_off.
Proof.
  intros w. unfold result, nm_off. rewrite run_gets.
  destruct (negb (nm_profile_loaded w)).
  - exists false. reflexivity.
  - apply returns_try_except, switch_handler_returns.
Qed.

(** X1. [nm_on] and [nm_off] never raise: whatever goes wrong inside them
    (a colour that is no string, a menu action that was never created) is
    caught, so each call returns [True] or [False]. *)
Theorem nm_on_nm_off_never_raise (w : World) :
  (exists b, result nm_on w = Returned b) /\ (exists b, result nm_off w = Returned b).
Proof. split; [apply nm_on_returns | apply nm_off_returns]. Qed.

(** *** Switching on *)

(** The generated rules for a text colour [t]. *)
Lemma run_nm_card_color_css {B} (k : string -> Py B) (w : World) (t : string) :
  nm_color_td (settings w) = PyStr t ->
  (x <- nm_card_color_css ;; k x) w =
  k (".card {    color:" +:+ t +:+ "!important;" +:+ "background-color:#blue!important}") w.
Proof.
  intros H. unfold nm_card_color_css. rewrite run_bind_assoc, run_gets, H.
  cbn [str_add]. rewrite run_bind_assoc. reflexivity.
Qed.

Lemma run_nm_body_color_css {B} (k : string -> Py B) (w : World) (t : string) :
  nm_color_td (settings w) = PyStr t ->
  (x <- nm_body_color_css ;; k x) w =
  k (" body {    color:" +:+ t +:+ "!important;" +:+ "background-color:!important}") w.
Proof.
  intros H. unfold nm_body_color_css. rewrite run_bind_assoc, run_gets, H.
  cbn [str_add]. rewrite run_bind_assoc. reflexivity.
Qed.

Lemma run_nm_card_color_css_raises {B} (k : string -> Py B) (w : World) :
  is_pystr (nm_color_td (settings w)) = false ->
  (x <- nm_card_color_css ;; k x) w = (Raised TypeError, w).
Proof.
  intros H. unfold nm_card_color_css. rewrite run_bind_assoc, run_gets.
  destruct (nm_color_td (settings w)); try discriminate H; reflexivity.
Qed.

(** The rule that [nm_css_custom_color_map] writes for one table entry. *)
Definition color_rule (entry : string * string) : string :=
  "font[color=" +:+ dq +:+ fst entry +:+ dq +:+ "]{color:" +:+ snd entry +:+ "!important}".

Definition color_rules (table : list (string * string)) : string :=
  fold_left (fun css entry => css +:+ color_rule entry) table "".

Lemma color_rules_fold (table : list (string * string)) (s : string) :
  fold_left
    (fun css '(old, new) =>
       css +:+ ("font[color=" +:+ dq +:+ old +:+ dq +:+ "]{color:" +:+ new +:+ "!important}"))
    table s =
  fold_left (fun css entry => css +:+ color_rule entry) table s.
Proof.
  revert s. induction table as [|[old new] table IH]; intros s; [reflexivity|].
  cbn [fold_left]. rewrite IH. reflexivity.
Qed.

Lemma run_nm_css_custom_color_map {B} (k : string -> Py B) (w : World) :
  (x <- nm_css_custom_color_map ;; k x) w = k (color_rules (nm_custom_color_map w)) w.
Proof.
  unfold nm_css_custom_color_map. rewrite run_bind_assoc, run_gets.
  rewrite color_rules_fold. reflexivity.
Qed.

(** Every entry of the table has its rule in the generated string. *)
Lemma color_rules_app (table : list (string * string)) (s : string) :
  fold_left (fun css entry => css +:+ color_rule entry) table s =
  s +:+ color_rules table.
Proof.
  unfold color_rules. revert s.
  induction table as [|e table IH]; intros s; cbn [fold_left].
  - rewrite str_append_nil_r. reflexivity.
  - rewrite IH, (IH ("" +:+ color_rule e)), <- str_append_assoc. reflexivity.
Qed.

Lemma color_rules_occurs (table : list (string * string)) (entry : string * string) :
  In entry table -> occurs (color_rule entry) (color_rules table).
Proof.
  induction table as [|e table IH]; intros Hin; [destruct Hin|].
  unfold color_rules. cbn [fold_left]. rewrite color_rules_app.
  destruct Hin as [->|Hin].
  - apply occurs_here.
  - apply occurs_append_l, IH, Hin.
Qed.

(** The arguments that [nm_on] hands to [nm_append_to_styles] when the text
    colour is the string [t]: body, decks, overview and waiting screen. *)
Definition night_body (t : string) (table : list (string * string)) : string :=
  nm_css_body +:+
  (".card {    color:" +:+ t +:+ "!important;" +:+ "background-color:#blue!important}") +:+
  color_rules table.

Definition night_page (css t : string) : string :=
  css +:+ " body {    color:" +:+ t +:+ "!important;" +:+ "background-color:!important}".

(** [nm_on] with a loaded profile and a string as text colour: it runs up
    to the menu action. *)
Lemma run_nm_on (w : World) (t : string) :
  nm_profile_loaded w = true ->
  nm_color_td (settings w) = PyStr t ->
  let w1 := with_browser_colours "#D9B2E9" "#FFFFB2"
              (with_settings (set_setting State_on (PyBool true)) w) in
  let w2 := exec (nm_append_to_styles nm_css_bottom
                    (night_body t (nm_custom_color_map w)) nm_css_top
                    (night_page nm_css_decks t) nm_css_other_bottoms
                    (night_page nm_css_overview t) nm_css_menu
                    (night_page nm_css_buttons t)) w1 in
  nm_on w =
  match nm_menu_switch (actions w) with
  | Some act =>
      (Returned true,
       with_actions (set_action Menu_switch (Some (QAction_setChecked true act))) w2)
  | None =>
      (Returned false, with_call (showWarning NM_ERROR_SWITCH (Some AttributeError)) w2)
  end.
Proof.
  intros Hl Ht w1 w2. unfold nm_on. rewrite run_gets, Hl. cbn [negb].
  unfold assign. rewrite !try_modify. fold w1.
  assert (Ht1 : nm_color_td (settings w1) = PyStr t) by exact Ht.
  unfold try_except.
  rewrite (run_nm_card_color_css _ w1 t Ht1).
  rewrite run_nm_css_custom_color_map.
  rewrite !(run_nm_body_color_css _ w1 t Ht1).
  rewrite run_returns by apply nm_append_to_styles_returns.
  change (nm_custom_color_map w1) with (nm_custom_color_map w).
  fold (night_body t (nm_custom_color_map w)).
  fold (night_page nm_css_decks t) (night_page nm_css_overview t)
       (night_page nm_css_buttons t).
  fold w2.
  assert (Ha : actions w2 = actions w).
  { subst w2. unfold exec. rewrite (keeps_at actions); [reflexivity | keeps_auto]. }
  unfold setChecked. rewrite run_bind_assoc, run_gets, Ha.
  destruct (nm_menu_switch (actions w)) as [act|] eqn:E; cbn [get_action]; rewrite E;
    reflexivity.
Qed.

Lemma run_nm_on_no_colour (w : World) :
  nm_profile_loaded w = true ->
  is_pystr (nm_color_td (settings w)) = false ->
  nm_on w =
  (Returned false,
   with_call (showWarning NM_ERROR_SWITCH (Some TypeError))
     (with_browser_colours "#D9B2E9" "#FFFFB2"
        (with_settings (set_setting State_on (PyBool true)) w))).
Proof.
  intros Hl Ht. unfold nm_on. rewrite run_gets, Hl. cbn [negb].
  unfold assign. rewrite !try_modify. unfold try_except.
  rewrite run_nm_card_color_css_raises by exact Ht. reflexivity.
Qed.

(** X2. [nm_on] reports success exactly when it could do all of its work:
    it returns [True] if and only if the profile is loaded, the text colour
    [nm_color_td] is a string and the menu action [nm_menu_switch] has been
    created; in every other case it returns [False]. *)
Theorem nm_on_returns_true_iff (w : World) :
  result nm_on w = Returned true <->
  nm_profile_loaded w = true /\
  is_pystr (nm_color_td (settings w)) = true /\
  nm_menu_switch (actions w) <> None.
Proof.
  unfold result. destruct (nm_profile_loaded w) eqn:Hl.
  - destruct (nm_color_td (settings w)) as [| | |t] eqn:Ht.
    1-3: rewrite (run_nm_on_no_colour w Hl) by (rewrite Ht; reflexivity);
         cbn [fst is_pystr]; split; [discriminate | intros (_ & H & _); discriminate H].
    rewrite (run_nm_on w t Hl Ht).
    destruct (nm_menu_switch (actions w)); cbn [fst is_pystr]; split.
    + intros _. repeat split. discriminate.
    + reflexivity.
    + discriminate.
    + intros (_ & _ & H). contradiction H. reflexivity.
  - rewrite nm_on_not_loaded by exact Hl. cbn [fst].
    split; [discriminate | intros (H & _); discriminate H].
Qed.

(** The look after [nm_on], whether or not the menu action exists. *)
Lemma nm_on_look (w : World) (t : string) :
  nm_profile_loaded w = true ->
  nm_color_td (settings w) = PyStr t ->
  let d := defaults w in
  style_attributes (exec nm_on w) =
    [nm_default_css_menu d +:+ nm_css_menu; nm_default_css_top d +:+ nm_css_top;
     nm_default_css_bottom d +:+ nm_css_bottom;
     nm_default_css_decks d +:+ night_page nm_css_decks t;
     nm_default_css_decks_bottom d +:+ nm_css_other_bottoms;
     nm_default_css_overview d +:+ night_page nm_css_overview t;
     nm_default_css_overview_bottom d +:+ nm_css_other_bottoms;
     nm_default_css_waiting_screen d +:+ night_page nm_css_buttons t;
     "#D9B2E9"; "#FFFFB2"] /\
  review_body (styles (exec nm_on w)) =
    styled_body d (night_body t (nm_custom_color_map w) +:+ inversion_rules (settings w)).
Proof.
  intros Hl Ht d.
  pose proof (run_nm_on w t Hl Ht) as Hrun. cbv zeta in Hrun.
  match type of Hrun with context [exec ?m ?w1] =>
    destruct (nm_append_to_styles_look nm_css_bottom
                (night_body t (nm_custom_color_map w)) nm_css_top
                (night_page nm_css_decks t) nm_css_other_bottoms
                (night_page nm_css_overview t) nm_css_menu
                (night_page nm_css_buttons t) w1) as [Ha Hb];
    set (w2 := exec m w1) in *
  end.
  assert (Hlook : look (exec nm_on w) = look w2).
  { unfold exec at 1. rewrite Hrun. destruct (nm_menu_switch (actions w)); reflexivity. }
  apply look_attributes in Hlook. destruct Hlook as [Hla Hlb].
  rewrite Hla, Hlb, Ha, Hb. split; reflexivity.
Qed.

(** X3. A successful [nm_on]: with a loaded profile, a string [t] as text
    colour and a checkable switch action, [nm_on] returns [True], sets
    [nm_state_on] to [True] and nothing else among the settings, checks
    the action, sets the browser's marked and suspended colours to the
    night colours, and writes every style as the saved default followed by
    the night CSS, so the host's own styles are extended and never
    replaced. *)
Theorem nm_on_switches_on (w : World) (t : string) (act : QAction) :
  nm_profile_loaded w = true ->
  nm_color_td (settings w) = PyStr t ->
  nm_menu_switch (actions w) = Some act ->
  action_checkable act = true ->
  let d := defaults w in
  result nm_on w = Returned true /\
  settings (exec nm_on w) = set_setting State_on (PyBool true) (settings w) /\
  checked Menu_switch (exec nm_on w) = Some true /\
  style_attributes (exec nm_on w) =
    [nm_default_css_menu d +:+ nm_css_menu; nm_default_css_top d +:+ nm_css_top;
     nm_default_css_bottom d +:+ nm_css_bottom;
     nm_default_css_decks d +:+ night_page nm_css_decks t;
     nm_default_css_decks_bottom d +:+ nm_css_other_bottoms;
     nm_default_css_overview d +:+ night_page nm_css_overview t;
     nm_default_css_overview_bottom d +:+ nm_css_other_bottoms;
     nm_default_css_waiting_screen d +:+ night_page nm_css_buttons t;
     "#D9B2E9"; "#FFFFB2"] /\
  review_body (styles (exec nm_on w)) =
    styled_body d (night_body t (nm_custom_color_map w) +:+ inversion_rules (settings w)).
Proof.
  intros Hl Ht Hs Hc d.
  split; [|split; [|split]].
  - unfold result. rewrite (run_nm_on w t Hl Ht), Hs. reflexivity.
  - rewrite nm_on_settings, Hl. reflexivity.
  - unfold checked, exec. rewrite (run_nm_on w t Hl Ht), Hs. cbn [snd].
    unfold QAction_setChecked. rewrite Hc. reflexivity.
  - apply (nm_on_look w t Hl Ht).
Qed.

Lemma nm_on_color_map (w : World) :
  nm_custom_color_map (exec nm_on w) = nm_custom_color_map w.
Proof. apply (keeps_at nm_custom_color_map). keeps_auto. Qed.

Lemma nm_on_defaults (w : World) : defaults (exec nm_on w) = defaults w.
Proof. apply nm_on_keeps_defaults. Qed.

Lemma nm_on_loaded (w : World) : nm_profile_loaded (exec nm_on w) = nm_profile_loaded w.
Proof. apply nm_on_keeps_loaded. Qed.

(** X4. [nm_on] is idempotent: a second call changes neither the styles
    and colours the add-on writes nor the settings, so night styles never
    pile up when night mode is re-applied (as [nm_refresh] does). *)
Theorem nm_on_idempotent (w : World) :
  style_attributes (exec nm_on (exec nm_on w)) = style_attributes (exec nm_on w) /\
  review_body (styles (exec nm_on (exec nm_on w))) = review_body (styles (exec nm_on w)) /\
  settings (exec nm_on (exec nm_on w)) = settings (exec nm_on w).
Proof.
  assert (Hset : settings (exec nm_on (exec nm_on w)) = settings (exec nm_on w)).
  { rewrite !nm_on_settings, nm_on_loaded.
    destruct (nm_profile_loaded w); reflexivity. }
  split; [|split; [|exact Hset]].
  all: destruct (nm_profile_loaded w) eqn:Hl.
  all: try (unfold exec; rewrite (nm_on_not_loaded w Hl); cbn [snd];
            rewrite nm_on_not_loaded by exact Hl; reflexivity).
  all: destruct (nm_color_td (settings w)) as [| | |t] eqn:Ht.
  all: try (unfold exec;
            rewrite (run_nm_on_no_colour w Hl) by (rewrite Ht; reflexivity); cbn [snd];
            rewrite run_nm_on_no_colour by (first [exact Hl | cbn; rewrite Ht; reflexivity]);
            reflexivity).
  all: assert (Hl1 : nm_profile_loaded (exec nm_on w) = true)
         by (rewrite nm_on_loaded; exact Hl).
  all: assert (Ht1 : nm_color_td (settings (exec nm_on w)) = PyStr t)
         by (rewrite nm_on_settings, Hl; exact Ht).
  all: destruct (nm_on_look w t Hl Ht) as [Ha Hb].
  all: destruct (nm_on_look (exec nm_on w) t Hl1 Ht1) as [Ha1 Hb1].
  - rewrite Ha1, Ha, (nm_on_defaults w). reflexivity.
  - rewrite Hb1, Hb, (nm_on_defaults w), (nm_on_color_map w), (nm_on_settings w), Hl.
    rewrite inversion_rules_set_state_on. reflexivity.
Qed.

(** X5. Every entry of the colour replacement table reaches the review
    screen: after [nm_on] with a loaded profile and a string as text
    colour, the reviewer's body style contains the rule
    [font[color="old"]{color:new!important}] of each entry [(old, new)] of
    [nm_custom_color_map]. *)
Theorem nm_on_applies_color_map (w : World) (t : string) (entry : string * string) :
  nm_profile_loaded w = true ->
  nm_color_td (settings w) = PyStr t ->
  In entry (nm_custom_color_map w) ->
  occurs (color_rule entry) (review_body (styles (exec nm_on w))).
Proof.
  intros Hl Ht Hin. destruct (nm_on_look w t Hl Ht) as [_ Hb]. rewrite Hb.
  apply occurs_styled_body, occurs_append_r. unfold night_body.
  apply occurs_append_l, occurs_append_l, color_rules_occurs, Hin.
Qed.

(** *** Switching off *)

Lemma run_nm_off (w : World) :
  nm_profile_loaded w = true ->
  let w1 := with_browser_colours (DEFLAULT_COLOUR_MARKED (defaults w))
              (DEFLAULT_COLOUR_SUSPENDED (defaults w))
              (with_settings (set_setting State_on (PyBool false)) w) in
  let w2 := exec (nm_append_to_styles "" "" "" "" "" "" "" "") w1 in
  nm_off w =
  match nm_menu_switch (actions w) with
  | Some act =>
      (Returned true,
       with_actions (set_action Menu_switch (Some (QAction_setChecked false act))) w2)
  | None =>
      (Returned false, with_call (showWarning NM_ERROR_SWITCH (Some AttributeError)) w2)
  end.
Proof.
  intros Hl w1 w2. unfold nm_off. rewrite run_gets, Hl. cbn [negb].
  unfold assign. rewrite !try_modify.
  match goal with |- context [try_except _ _ ?W] => change W with w1 end.
  unfold try_except.
  rewrite run_returns by apply nm_append_to_styles_returns. fold w2.
  assert (Ha : actions w2 = actions w).
  { subst w2. unfold exec. rewrite (keeps_at actions); [reflexivity | keeps_auto]. }
  unfold setChecked. rewrite run_bind_assoc, run_gets, Ha.
  destruct (nm_menu_switch (actions w)) as [act|] eqn:E; cbn [get_action]; rewrite E;
    reflexivity.
Qed.

(** X6. [nm_off] resets from any state: with a loaded profile it rebuilds
    every style from the saved defaults, whatever the current styles are
    (night styles, the original ones, or anything else), sets the browser
    colours back to the saved ones and [nm_state_on] to [False]; the
    reviewer's body keeps only the wrapper around the inversion rules.  It
    returns [True] exactly when the menu action [nm_menu_switch] exists. *)
Theorem nm_off_resets_any_state (w : World) :
  nm_profile_loaded w = true ->
  style_attributes (exec nm_off w) = saved_attributes (defaults w) /\
  review_body (styles (exec nm_off w)) =
    styled_body (defaults w) (inversion_rules (settings w)) /\
  settings (exec nm_off w) = set_setting State_on (PyBool false) (settings w) /\
  (result nm_off w = Returned true <-> nm_menu_switch (actions w) <> None).
Proof.
  intros Hl. destruct (nm_off_look w Hl) as [Ha Hb].
  split; [exact Ha|]. split; [exact Hb|]. split.
  - rewrite nm_off_settings, Hl. reflexivity.
  - unfold result. rewrite (run_nm_off w Hl).
    destruct (nm_menu_switch (actions w)); cbn [fst]; split.
    + discriminate.
    + reflexivity.
    + discriminate.
    + intros H. contradiction H. reflexivity.
Qed.

(** *** Refreshing *)

(** The cached colour rule for two colour strings. *)
Definition custom_colors_string (t b : string) : string :=
  "color:" +:+ t +:+ ";" +:+ nl +:+ "background:" +:+ b +:+ ";".

Lemma run_nm_refresh_css (w : World) (t b : string) :
  nm_color_td (settings w) = PyStr t ->
  nm_color_bl (settings w) = PyStr b ->
  nm_refresh_css_custom_colors_string w =
  (Returned tt, with_css_custom_colors (custom_colors_string t b) w).
Proof.
  intros Ht Hb.
  unfold nm_refresh_css_custom_colors_string, nm_make_css_custom_colors_string.
  unfold bind, gets, ret, modify, str_add. cbv beta iota.
  rewrite Ht. cbv beta iota. rewrite Hb. cbv beta iota.
  unfold ret. cbv beta iota.
  unfold custom_colors_string. rewrite !str_append_assoc. reflexivity.
Qed.

Lemma run_nm_refresh_css_raises (w : World) :
  is_pystr (nm_color_td (settings w)) && is_pystr (nm_color_bl (settings w)) = false ->
  nm_refresh_css_custom_colors_string w = (Raised TypeError, w).
Proof.
  intros H.
  unfold nm_refresh_css_custom_colors_string, nm_make_css_custom_colors_string.
  unfold bind, gets, ret, modify, str_add, raise. cbv beta iota.
  destruct (nm_color_td (settings w)), (nm_color_bl (settings w));
    try discriminate H; reflexivity.
Qed.

Lemma set_state_off_bool (s : Settings) :
  is_pybool (nm_state_on s) = true -> truthy (nm_state_on s) = false ->
  set_setting State_on (PyBool false) s = s.
Proof.
  destruct s as [st ? ? ? ? ? ?]. cbn [nm_state_on].
  destruct st as [|[]| |]; cbn [is_pybool truthy]; intros H1 H2;
    first [discriminate | reflexivity].
Qed.

(** After [nm_on] or [nm_off] on a Boolean [nm_state_on] that already says
    so, the settings are what they were. *)
Lemma reapply_mode_settings (w : World) :
  is_pybool (nm_state_on (settings w)) = true ->
  settings
    (snd ((if truthy (nm_state_on (settings w))
           then _ <- nm_on ;; ret tt
           else _ <- nm_off ;; ret tt) w)) = settings w.
Proof.
  intros Hb. destruct (truthy (nm_state_on (settings w))) eqn:T.
  - rewrite (bind_keeps_after settings) by (intros; apply keeps_ret).
    change (settings (exec nm_on w) = settings w). rewrite nm_on_settings.
    destruct (nm_profile_loaded w); [apply set_state_on_bool; assumption | reflexivity].
  - rewrite (bind_keeps_after settings) by (intros; apply keeps_ret).
    change (settings (exec nm_off w) = settings w). rewrite nm_off_settings.
    destruct (nm_profile_loaded w); [apply set_state_off_bool; assumption | reflexivity].
Qed.

(** X7. [nm_refresh] re-applies the current mode and never switches it:
    when [nm_state_on] holds a Python [bool], all seven settings are after
    [nm_refresh] what they were before, whether it returns or raises. *)
Theorem nm_refresh_keeps_settings (w : World) :
  is_pybool (nm_state_on (settings w)) = true ->
  settings (exec nm_refresh w) = settings w.
Proof.
  intros Hb. unfold exec, nm_refresh. rewrite run_bind.
  assert (Hr : settings (snd (nm_refresh_css_custom_colors_string w)) = settings w)
    by (apply keeps_at; keeps_auto).
  destruct (nm_refresh_css_custom_colors_string w) as [[[]|e] w1]; cbn [snd] in *;
    [|exact Hr].
  rewrite run_gets, Hr. rewrite <- Hr in Hb |- *.
  apply reapply_mode_settings. exact Hb.
Qed.

(** X8. [nm_refresh] and the colours.  If [nm_color_td] or [nm_color_bl]
    is not a string, [nm_refresh] raises [TypeError] before it changes
    anything.  If both are strings it returns, and the cached rule
    [nm_css_custom_colors] is the one built from the two colours. *)
Theorem nm_refresh_colours (w : World) :
  match nm_color_td (settings w), nm_color_bl (settings w) with
  | PyStr t, PyStr b =>
      result nm_refresh w = Returned tt /\
      nm_css_custom_colors (exec nm_refresh w) = custom_colors_string t b
  | _, _ => nm_refresh w = (Raised TypeError, w)
  end.
Proof.
  destruct (nm_color_td (settings w)) as [| | |t] eqn:Ht.
  1-3: unfold nm_refresh; rewrite run_bind;
       rewrite run_nm_refresh_css_raises by (rewrite Ht; reflexivity); reflexivity.
  destruct (nm_color_bl (settings w)) as [| | |b] eqn:Hb.
  1-3: unfold nm_refresh; rewrite run_bind;
       rewrite run_nm_refresh_css_raises by (rewrite Ht, Hb; reflexivity); reflexivity.
  unfold result, exec, nm_refresh. rewrite run_bind, (run_nm_refresh_css w t b Ht Hb).
  rewrite run_gets. set (w1 := with_css_custom_colors _ w).
  destruct (truthy (nm_state_on (settings w1))).
  - destruct (nm_on_returns w1) as [x Hx]. unfold result in Hx.
    split.
    + rewrite run_bind. destruct (nm_on w1) as [[?|?] ?]; [reflexivity | discriminate Hx].
    + rewrite (bind_keeps_after nm_css_custom_colors) by (intros; apply keeps_ret).
      rewrite (keeps_at nm_css_custom_colors); [reflexivity | keeps_auto].
  - destruct (nm_off_returns w1) as [x Hx]. unfold result in Hx.
    split.
    + rewrite run_bind. destruct (nm_off w1) as [[?|?] ?]; [reflexivity | discriminate Hx].
    + rewrite (bind_keeps_after nm_css_custom_colors) by (intros; apply keeps_ret).
      rewrite (keeps_at nm_css_custom_colors); [reflexivity | keeps_auto].
Qed.

(** *** The switch of the menu *)

(** Does [nm_switch] refuse: Anki 2.0 with an open dialog. *)
Definition switch_refused (dialogs : list bool) : bool :=
  startswith appVersion "2.0" && existsb (fun x => x) dialogs.

Lemma filter_nonempty (dialogs : list bool) :
  negb (Nat.eqb (length (List.filter (fun x => x) dialogs)) 0) =
  existsb (fun x => x) dialogs.
Proof.
  induction dialogs as [|[] l IH]; cbn [List.filter existsb length orb];
    [reflexivity | reflexivity | exact IH].
Qed.

(** X9. [nm_switch] toggles night mode unless it must refuse.  On Anki 2.0
    with an open dialog it only warns: the world is the same except for the
    logged warning.  Otherwise, with a loaded profile and a Boolean
    [nm_state_on], it returns with [nm_state_on] negated and the other six
    settings unchanged, so that two calls in a row restore the settings. *)
Theorem nm_switch_toggles (dialogs : list bool) (w : World) (b : bool) :
  nm_state_on (settings w) = PyBool b ->
  (switch_refused dialogs = true ->
   nm_switch dialogs w =
   (Returned tt,
    with_call
      (showWarning "Night mode can not be switched when the dialogs are open" None) w)) /\
  (switch_refused dialogs = false ->
   nm_profile_loaded w = true ->
   result (nm_switch dialogs) w = Returned tt /\
   settings (exec (nm_switch dialogs) w) =
     set_setting State_on (PyBool (negb b)) (settings w) /\
   settings (exec (nm_switch dialogs) (exec (nm_switch dialogs) w)) = settings w).
Proof.
  intros Hb.
  assert (Hone : forall u c, switch_refused dialogs = false ->
            nm_profile_loaded u = true -> nm_state_on (settings u) = PyBool c ->
            result (nm_switch dialogs) u = Returned tt /\
            settings (exec (nm_switch dialogs) u) =
              set_setting State_on (PyBool (negb c)) (settings u) /\
            nm_profile_loaded (exec (nm_switch dialogs) u) = true).
  { intros u c Hr Hl Hc. unfold result, exec, nm_switch.
    unfold switch_refused in Hr. rewrite filter_nonempty, Hr, run_gets, Hc.
    destruct c; cbn [truthy negb].
    - destruct (nm_off_returns u) as [x Hx]. unfold result in Hx.
      pose proof (nm_off_settings u) as Hs. rewrite Hl in Hs.
      pose proof (keeps_at nm_profile_loaded nm_off u ltac:(keeps_auto)) as Hk.
      unfold exec in Hs. rewrite run_bind.
      destruct (nm_off u) as [[?|?] u']; [|discriminate Hx]. cbn [fst snd] in *.
      repeat split; [exact Hs | exact (eq_trans Hk Hl)].
    - destruct (nm_on_returns u) as [x Hx]. unfold result in Hx.
      pose proof (nm_on_settings u) as Hs. rewrite Hl in Hs.
      pose proof (nm_on_loaded u) as Hk.
      unfold exec in Hs, Hk. rewrite run_bind.
      destruct (nm_on u) as [[?|?] u']; [|discriminate Hx]. cbn [fst snd] in *.
      repeat split; [exact Hs | exact (eq_trans Hk Hl)]. }
  split.
  - intros Hr. unfold nm_switch. unfold switch_refused in Hr.
    rewrite filter_nonempty, Hr. reflexivity.
  - intros Hr Hl. destruct (Hone w b Hr Hl Hb) as (H1 & H2 & H3).
    split; [exact H1|]. split; [exact H2|].
    destruct (Hone (exec (nm_switch dialogs) w) (negb b) Hr H3) as (_ & H4 & _).
    { rewrite H2. reflexivity. }
    rewrite H4, H2, negb_involutive.
    destruct (settings w) as [st ? ? ? ? ? ?]. cbn in Hb |- *. rewrite Hb. reflexivity.
Qed.

(** X10. [nm_endial] is a pure toggle: it negates [nm_enable_in_dialogs]
    and changes nothing else in the world (no style is rewritten, no
    refresh happens); on a Boolean flag two calls restore the world. *)
Theorem nm_endial_toggles (w : World) :
  nm_endial w =
  (Returned tt,
   with_settings
     (set_setting Enable_in_dialogs
        (PyBool (negb (truthy (nm_enable_in_dialogs (settings w)))))) w) /\
  (is_pybool (nm_enable_in_dialogs (settings w)) = true ->
   settings (exec nm_endial (exec nm_endial w)) = settings w /\
   look (exec nm_endial (exec nm_endial w)) = look w /\
   calls (exec nm_endial (exec nm_endial w)) = calls w).
Proof.
  assert (H : forall u, nm_endial u =
    (Returned tt,
     with_settings
       (set_setting Enable_in_dialogs
          (PyBool (negb (truthy (nm_enable_in_dialogs (settings u)))))) u)).
  { intros u. unfold nm_endial. rewrite run_gets.
    destruct (truthy (nm_enable_in_dialogs (settings u))); reflexivity. }
  split; [apply H|].
  intros Hb. unfold exec. rewrite !H. cbn [snd].
  split; [|split; reflexivity].
  cbn [settings with_settings].
  destruct (settings w) as [? en ? ? ? ? ?]. cbn in Hb |- *.
  destruct en as [|[]| |]; try discriminate Hb; reflexivity.
Qed.

(** *** Colours and inversion *)

(** X11. [nm_color_reset] always goes through: it returns without raising
    (the colours it assigns are strings), leaves [nm_color_bl] at
    [theme.color1] and [nm_color_td] at [theme.color7], the values that
    [nm_load] uses for a profile without colours, and the cached rule
    [nm_css_custom_colors] agrees with them. *)
Theorem nm_color_reset_defaults (w : World) :
  result nm_color_reset w = Returned tt /\
  nm_color_bl (settings (exec nm_color_reset w)) = load_default Color_bl /\
  nm_color_td (settings (exec nm_color_reset w)) = load_default Color_td /\
  nm_css_custom_colors (exec nm_color_reset w) =
    custom_colors_string (color7 theme) (color1 theme).
Proof.
  unfold result, exec, nm_color_reset, assign. rewrite !run_modify.
  set (w1 := with_settings _ (with_settings _ w)).
  assert (Ht : nm_color_td (settings w1) = PyStr (color7 theme)) by reflexivity.
  assert (Hb : nm_color_bl (settings w1) = PyStr (color1 theme)) by reflexivity.
  unfold nm_refresh. rewrite run_bind, (run_nm_refresh_css w1 _ _ Ht Hb), run_gets.
  set (w2 := with_css_custom_colors _ w1).
  assert (Hcol : forall u, settings u = settings w2 \/
                   settings u = set_setting State_on (PyBool true) (settings w2) \/
                   settings u = set_setting State_on (PyBool false) (settings w2) ->
                 nm_color_bl (settings u) = load_default Color_bl /\
                 nm_color_td (settings u) = load_default Color_td).
  { intros u [->|[->| ->]]; split; reflexivity. }
  destruct (truthy (nm_state_on (settings w2))).
  - destruct (nm_on_returns w2) as [x Hx]. unfold result in Hx.
    pose proof (nm_on_settings w2) as Hs.
    pose proof (keeps_at nm_css_custom_colors nm_on w2 ltac:(keeps_auto)) as Hc.
    unfold exec in Hs. rewrite run_bind.
    destruct (nm_on w2) as [[?|?] u]; [|discriminate Hx]. cbn [fst snd] in *.
    split; [reflexivity|].
    destruct (Hcol u) as [H1 H2].
    { rewrite Hs. destruct (nm_profile_loaded w2); auto. }
    split; [exact H1|]. split; [exact H2 | exact Hc].
  - destruct (nm_off_returns w2) as [x Hx]. unfold result in Hx.
    pose proof (nm_off_settings w2) as Hs.
    pose proof (keeps_at nm_css_custom_colors nm_off w2 ltac:(keeps_auto)) as Hc.
    unfold exec in Hs. rewrite run_bind.
    destruct (nm_off w2) as [[?|?] u]; [|discriminate Hx]. cbn [fst snd] in *.
    split; [reflexivity|].
    destruct (Hcol u) as [H1 H2].
    { rewrite Hs. destruct (nm_profile_loaded w2); auto. }
    split; [exact H1|]. split; [exact H2 | exact Hc].
Qed.



(** *** Transparent latex, once more *)

(** The command lists after the overwrite. *)
Definition overwritten (l : Latex) : Latex :=
  fold_left (fun l v => set_latex v (<[1 := transparent_dvipng]> (get_latex v l)) l)
    latex_command_lists l.

Lemma run_nm_make_latex_transparent (w : World) :
  (forall v, In v latex_command_lists -> 1 < length (get_latex v (latex w))) ->
  nm_make_latex_transparent w = (Returned tt, with_latex (overwritten (latex w)) w).
Proof.
  unfold nm_make_latex_transparent, overwritten, latex_command_lists.
  destruct (startswith appVersion "2.1"); intros H; cbn [app for_each fold_left].
  - rewrite run_list_setitem by (apply H; left; reflexivity).
    rewrite run_list_setitem by (apply (H SvgCommands); right; left; reflexivity).
    reflexivity.
  - rewrite run_list_setitem by (apply H; left; reflexivity).
    reflexivity.
Qed.

Lemma overwritten_get (l : Latex) (v : LatexVar) :
  get_latex v (overwritten l) =
  if existsb (fun u => match u, v with
                       | PngCommands, PngCommands | SvgCommands, SvgCommands
                       | LatexCmds, LatexCmds => true
                       | _, _ => false
                       end) latex_command_lists
  then <[1 := transparent_dvipng]> (get_latex v l)
  else get_latex v l.
Proof.
  unfold overwritten, latex_command_lists.
  destruct (startswith appVersion "2.1"), v; reflexivity.
Qed.

(** X13. [nm_make_latex_transparent] is idempotent: on command lists with a
    second entry, running it again changes nothing, and what it changes the
    first time is that one entry of each collected list: the lengths of the
    lists and all their other entries stay. *)
Theorem nm_make_latex_transparent_idempotent (w : World) :
  (forall v, In v latex_command_lists -> 1 < length (get_latex v (latex w))) ->
  latex (exec nm_make_latex_transparent (exec nm_make_latex_transparent w)) =
    latex (exec nm_make_latex_transparent w) /\
  forall v i,
    length (get_latex v (latex (exec nm_make_latex_transparent w))) =
      length (get_latex v (latex w)) /\
    (i <> 1 ->
     get_latex v (latex (exec nm_make_latex_transparent w)) !! i =
       get_latex v (latex w) !! i).
Proof.
  intros H. unfold exec. rewrite (run_nm_make_latex_transparent w H). cbn [snd].
  assert (Hget : forall v i,
    length (get_latex v (overwritten (latex w))) = length (get_latex v (latex w)) /\
    (i <> 1 -> get_latex v (overwritten (latex w)) !! i = get_latex v (latex w) !! i)).
  { intros v i. rewrite overwritten_get. destruct (existsb _ _).
    - rewrite length_insert. split; [reflexivity|].
      intros Hi. apply list_lookup_insert_ne. congruence.
    - split; reflexivity. }
  split; [|exact Hget].
  rewrite run_nm_make_latex_transparent.
  - cbn [snd latex with_latex].
    unfold overwritten, latex_command_lists.
    destruct (startswith appVersion "2.1"); cbn [fold_left];
      destruct (latex w); cbn; rewrite ?list_insert_insert_eq; reflexivity.
  - intros v Hv. cbn [latex with_latex]. rewrite (proj1 (Hget v 0)). apply H, Hv.
Qed.

(** X14. The bounds of [command[1] = ...].  When the first collected
    command list has fewer than two entries, [nm_make_latex_transparent]
    raises [IndexError] and no command list has changed.  On Anki 2.1, when
    [pngCommands] is long enough but [svgCommands] is not, it raises as
    well, but only after [pngCommands] has been overwritten. *)
Theorem nm_make_latex_transparent_index_error (w : World) :
  (length (get_latex (hd LatexCmds latex_command_lists) (latex w)) <= 1 ->
   nm_make_latex_transparent w = (Raised IndexError, w)) /\
  (startswith appVersion "2.1" = true ->
   1 < length (pngCommands (latex w)) ->
   length (svgCommands (latex w)) <= 1 ->
   result nm_make_latex_transparent w = Raised IndexError /\
   pngCommands (latex (exec nm_make_latex_transparent w)) =
     <[1 := transparent_dvipng]> (pngCommands (latex w)) /\
   svgCommands (latex (exec nm_make_latex_transparent w)) = svgCommands (latex w)).
Proof.
  assert (Hshort : forall {B} v (k : unit -> Py B) u,
            length (get_latex v (latex u)) <= 1 ->
            (x <- list_setitem v 1 transparent_dvipng ;; k x) u = (Raised IndexError, u)).
  { intros B v k u Hlen. unfold list_setitem. rewrite run_bind_assoc, run_gets.
    replace (Nat.ltb 1 (length (get_latex v (latex u)))) with false; [reflexivity|].
    symmetry. apply Nat.ltb_ge. exact Hlen. }
  unfold result, exec, nm_make_latex_transparent, latex_command_lists. split.
  - destruct (startswith appVersion "2.1"); cbn [app for_each hd]; intros Hlen;
      apply Hshort; exact Hlen.
  - intros -> H1 H2. cbn [app for_each].
    rewrite (run_list_setitem PngCommands) by exact H1.
    rewrite Hshort by exact H2. repeat split.
Qed.

(** *** Invariants *)

(** A statement preserves a property of the world, whether it returns or
    raises. *)
Definition preserves {A} (I : World -> Prop) (m : Py A) : Prop :=
  forall w, I w -> I (exec m w).

Lemma preserves_keeps {A B} (part : World -> B) (P : B -> Prop) (m : Py A) :
  keeps part m -> preserves (fun w => P (part w)) m.
Proof. intros H w Hw. rewrite H. exact Hw. Qed.

Lemma preserves_bind {A C} (I : World -> Prop) (m : Py A) (k : A -> Py C) :
  preserves I m -> (forall a, preserves I (k a)) -> preserves I (x <- m ;; k x).
Proof.
  intros Hm Hk w Hw. specialize (Hm w Hw). unfold exec in *. rewrite run_bind.
  destruct (m w) as [[a|e] w']; cbn [snd] in *; [apply Hk; exact Hm | exact Hm].
Qed.

Lemma preserves_try_except {A} (I : World -> Prop) (m : Py A) (h : exn -> Py A) :
  preserves I m -> (forall e, preserves I (h e)) -> preserves I (try_except m h).
Proof.
  intros Hm Hh w Hw. specialize (Hm w Hw). unfold exec, try_except in *.
  destruct (m w) as [[a|e] w']; cbn [snd] in *; [exact Hm | apply Hh; exact Hm].
Qed.

Lemma preserves_when (I : World -> Prop) (c : bool) (m : Py unit) :
  preserves I m -> preserves I (when c m).
Proof. intros Hm. destruct c; [exact Hm | intros w Hw; exact Hw]. Qed.

Lemma preserves_if {A} (I : World -> Prop) (c : bool) (m1 m2 : Py A) :
  preserves I m1 -> preserves I m2 -> preserves I (if c then m1 else m2).
Proof. destruct c; auto. Qed.

(** Checking an action leaves every checked action checked. *)
Lemma setChecked_true_preserves (v v' : ActionVar) :
  preserves (fun w => action_checked <$> get_action v (actions w) = Some true)
    (setChecked v' true).
Proof.
  intros w Hw. unfold exec, setChecked. rewrite run_gets.
  destruct (get_action v' (actions w)) as [act|] eqn:E; [|exact Hw].
  cbn [snd modify actions with_actions].
  destruct v, v'; cbn [get_action set_action] in *; try exact Hw;
    rewrite E in Hw; unfold QAction_setChecked;
    (destruct (action_checkable act); [reflexivity | exact Hw]).
Qed.

Ltac preserves_actions :=
  repeat (intros; first
    [ simple apply setChecked_true_preserves
    | simple apply (preserves_keeps actions
                      (fun a => action_checked <$> get_action _ a = Some true));
      solve [keeps_auto]
    | simple apply preserves_bind | simple apply preserves_try_except
    | simple apply preserves_when | simple apply preserves_if
    | progress unfold nm_on, nm_load ]).

(** X15. [nm_load] and [nm_on] never uncheck a menu action: an action that
    is checked before the call is checked after it, whatever the profile
    holds and whether the call returns or raises. *)
Theorem nm_load_nm_on_never_uncheck (v : ActionVar) (w : World) :
  checked v w = Some true ->
  checked v (exec nm_load w) = Some true /\ checked v (exec nm_on w) = Some true.
Proof.
  intros Hw. split.
  - revert w Hw. change (preserves (fun w => checked v w = Some true) nm_load).
    unfold checked. preserves_actions.
  - revert w Hw. change (preserves (fun w => checked v w = Some true) nm_on).
    unfold checked. preserves_actions.
Qed.

(** *** Saving again *)

Lemma nm_save_fixpoint (w : World) :
  (forall v, profile w !! profile_key v = Some (get_setting v (settings w))) ->
  exec nm_save w = w.
Proof.
  intros H. unfold exec, nm_save, profile_store. rewrite !run_modify.
  cbn [snd modify profile with_profile settings].
  rewrite (insert_id (profile w) (profile_key State_on)) by apply (H State_on).
  rewrite (insert_id (profile w) (profile_key Enable_in_dialogs))
    by apply (H Enable_in_dialogs).
  rewrite (insert_id (profile w) (profile_key Invert_image)) by apply (H Invert_image).
  rewrite (insert_id (profile w) (profile_key Invert_latex)) by apply (H Invert_latex).
  rewrite (insert_id (profile w) (profile_key Transparent_latex))
    by apply (H Transparent_latex).
  rewrite (insert_id (profile w) (profile_key Color_bl)) by apply (H Color_bl).
  rewrite (insert_id (profile w) (profile_key Color_td)) by apply (H Color_td).
  destruct w; reflexivity.
Qed.

Lemma nm_load_profile (w : World) : profile (exec nm_load w) = profile w.
Proof. apply (keeps_at profile). keeps_auto. Qed.

(** X16. Saving is stable.  [nm_save] is idempotent: a second call leaves
    the world as the first one left it.  And loading then saving does not
    alter a profile that is complete: when all seven keys are present (and
    ["nm_state_on"] holds a Python [bool]), the profile after [nm_load]
    followed by [nm_save] is the profile before. *)
Theorem nm_save_stable (w : World) :
  exec nm_save (exec nm_save w) = exec nm_save w /\
  ((forall v, is_Some (profile w !! profile_key v)) ->
   (forall x, profile w !! "nm_state_on" = Some x -> is_pybool x = true) ->
   profile (exec nm_save (exec nm_load w)) = profile w).
Proof.
  split.
  - apply nm_save_fixpoint. intros v.
    rewrite nm_save_profile. f_equal.
  - intros Hall Hb.
    assert (Hs : settings (exec nm_load w) = loaded_settings (profile w)).
    { destruct (nm_load_settings w) as [H | [T H]]; [exact H|].
      rewrite H. apply set_state_on_bool; [|exact T].
      cbn [loaded_settings nm_state_on]. unfold fetched, dict_get.
      cbn [profile_key load_default].
      destruct (profile w !! "nm_state_on") as [x|] eqn:E; cbn [default];
        [apply Hb; reflexivity | reflexivity]. }
    rewrite nm_save_fixpoint; [apply nm_load_profile|].
    intros v. rewrite nm_load_profile, Hs.
    destruct (Hall v) as [x Hx]. rewrite Hx. f_equal.
    destruct v; cbn [get_setting loaded_settings nm_state_on nm_enable_in_dialogs
      nm_invert_image nm_invert_latex nm_transparent_latex nm_color_bl nm_color_td];
      unfold fetched, dict_get; rewrite Hx; reflexivity.
Qed.

(** ** Helpers of the editor patches *)

(** The argument of [nm_encode_class_name] is a Python string, a sequence
    of Unicode code points (of bytes for a [str] of Python 2): a character
    is the number that [ord] returns for it. *)
Definition codepoint : Type := N.

Definition ord (c : codepoint) : N := c.

(** [str(n)] for a non-negative [int]: its decimal digits. *)
Definition str_of_int (n : N) : string := NilEmpty.string_of_uint (N.to_uint n).

(** [nm_encode_class_name] (lines 492-493):
    ["ID" + "".join(map(str, map(ord, string)))]. *)
Definition nm_encode_class_name (s : list codepoint) : string :=
  "ID" +:+ String.concat "" (map str_of_int (map ord s)).

Definition is_digit (c : ascii) : bool :=
  (48 <=? nat_of_ascii c)%nat && (nat_of_ascii c <=? 57)%nat.

Fixpoint all_digits (s : string) : bool :=
  match s with
  | EmptyString => true
  | String c s' => is_digit c && all_digits s'
  end.

Lemma all_digits_append (a b : string) :
  all_digits (a +:+ b) = all_digits a && all_digits b.
Proof.
  induction a as [|c a IH]; [reflexivity|].
  rewrite str_append_cons. cbn [all_digits]. rewrite IH, andb_assoc. reflexivity.
Qed.

Lemma all_digits_string_of_uint (d : Decimal.uint) :
  all_digits (NilEmpty.string_of_uint d) = true.
Proof. induction d; cbn [NilEmpty.string_of_uint all_digits]; auto. Qed.

Lemma all_digits_concat (l : list string) :
  Forall (fun s => all_digits s = true) l -> all_digits (String.concat "" l) = true.
Proof.
  induction 1 as [|s l Hs Hl IH]; [reflexivity|].
  destruct l as [|s' l].
  - exact Hs.
  - change (String.concat "" (s :: s' :: l)) with (s +:+ "" +:+ String.concat "" (s' :: l)).
    rewrite !all_digits_append, Hs, IH. reflexivity.
Qed.

Lemma concat_digits_app (l1 l2 : list string) :
  String.concat "" (l1 ++ l2)%list = String.concat "" l1 +:+ String.concat "" l2.
Proof.
  induction l1 as [|s l1 IH]; [reflexivity|].
  destruct l1 as [|s' l1].
  - cbn [app]. destruct l2 as [|t l2].
    + cbn [String.concat]. rewrite str_append_nil_r. reflexivity.
    + reflexivity.
  - change (String.concat "" ((s :: s' :: l1) ++ l2)%list)
      with (s +:+ "" +:+ String.concat "" ((s' :: l1) ++ l2)%list).
    rewrite IH.
    change (String.concat "" (s :: s' :: l1)) with (s +:+ "" +:+ String.concat "" (s' :: l1)).
    rewrite !str_append_assoc. reflexivity.
Qed.

(** The codes are written out in full, also beyond one byte: ['A'], ['é']
    and ['中'] are the code points 65, 233 and 20013. *)
Lemma nm_encode_class_name_code_points :
  nm_encode_class_name [65%N; 233%N; 20013%N] = "ID6523320013".
Proof. reflexivity. Qed.

(** X17. [nm_encode_class_name] yields a name that is safe in a Qt style
    sheet selector: ["ID"] followed by decimal digits only, for every
    string, whatever its code points (the empty string gives ["ID"]).  It
    encodes piecewise: the digits of [a + b] are the digits of [a] followed
    by those of [b]. *)
Theorem nm_encode_class_name_digits (a b : list codepoint) :
  (exists digits, nm_encode_class_name a = "ID" +:+ digits /\ all_digits digits = true) /\
  nm_encode_class_name [] = "ID" /\
  nm_encode_class_name (a ++ b) =
    nm_encode_class_name a +:+ String.concat "" (map str_of_int (map ord b)).
Proof.
  split; [|split].
  - eexists. split; [reflexivity|].
    apply all_digits_concat, Forall_forall. intros s Hs.
    apply list_elem_of_In, in_map_iff in Hs. destruct Hs as (c & <- & _).
    apply all_digits_string_of_uint.
  - reflexivity.
  - unfold nm_encode_class_name.
    rewrite !map_app, concat_digits_app, str_append_assoc.
    reflexivity.
Qed.

(** [nm_editor_web_view_stdHTML_around] (lines 343-375), the patch around
    the editor's [stdHtml] in Anki 2.1. *)

(** The style it adds (lines 345-356). *)
Definition editor_custom_css (s : Settings) : string :=
  let custom_css := "" in
  let custom_css :=
    if truthy (nm_state_on s) && truthy (nm_enable_in_dialogs s)
    then ((custom_css +:+
           (nm_css_buttons +:+ ".topbut{filter:invert(1); -webkit-filter:invert(1)}")) +:+
          ("a{color:" +:+ nm_color_tl +:+ "}  .fname, .field{  }")) +:+
         "html,body{background:#fff!important}"
    else custom_css in
  let custom_css :=
    if truthy (nm_invert_image s)
    then custom_css +:+ (".field " +:+ nm_css_iimage) else custom_css in
  let custom_css :=
    if truthy (nm_invert_latex s)
    then custom_css +:+ (".field " +:+ nm_css_ilatex) else custom_css in
  custom_css.

(** [args.pop(i)] *)
Definition list_pop {A} (i : nat) (l : list A) : outcome (A * list A) :=
  match l !! i with
  | Some x => Returned (x, delete i l)
  | None => Raised IndexError
  end.

(** The loop over [signature.parameters.items()] (lines 363-371): a
    parameter is its name and whether it has a default; [i] is the index
    into the positional arguments. *)
Fixpoint move_defaults (parameters : list (string * bool)) (args : list pyval)
    (i : nat) (kwargs : gmap string pyval)
    : outcome (list pyval * gmap string pyval) :=
  match parameters with
  | [] => Returned (args, kwargs)
  | (name, has_default) :: parameters' =>
      if (length args <=? i)%nat then Returned (args, kwargs)
      else if has_default then
        match list_pop i args with
        | Returned (value, args') =>
            move_defaults parameters' args' i (<[name := value]> kwargs)
        | Raised e => Raised e
        end
      else move_defaults parameters' args (S i) kwargs
  end.

(** The patch: [parameters] is the signature of the wrapped function,
    [kwargs] the keyword arguments once ['_old'] is popped; the result is
    the pair of arguments that the wrapped function is called with. *)
Definition nm_editor_web_view_stdHTML_around
    (parameters : list (string * bool)) (args : list pyval)
    (kwargs : gmap string pyval) : Py (list pyval * gmap string pyval) :=
  custom_css <- gets (fun w => editor_custom_css (settings w)) ;;
  match move_defaults parameters args 0 kwargs with
  | Raised e => raise e
  | Returned (args, kwargs) =>
      match dict_get kwargs "css" (PyStr "") with
      | PyStr css => ret (args, <["css" := PyStr (css +:+ custom_css)]> kwargs)
      | _ => raise TypeError
      end
  end.

(** What the loop is meant to do: pair parameters with positional
    arguments; an argument of a parameter with a default becomes a keyword
    argument, the others stay positional, in order. *)
Fixpoint bind_defaults (parameters : list (string * bool)) (args : list pyval)
    (kwargs : gmap string pyval) : list pyval * gmap string pyval :=
  match parameters, args with
  | (name, has_default) :: parameters', value :: args' =>
      if has_default
      then bind_defaults parameters' args' (<[name := value]> kwargs)
      else let '(positional, kwargs') := bind_defaults parameters' args' kwargs in
           (value :: positional, kwargs')
  | _, _ => (args, kwargs)
  end.

Lemma move_defaults_bind (parameters : list (string * bool)) :
  forall (done todo : list pyval) (kwargs : gmap string pyval),
    move_defaults parameters (done ++ todo) (length done) kwargs =
    Returned ((done ++ fst (bind_defaults parameters todo kwargs))%list,
              snd (bind_defaults parameters todo kwargs)).
Proof.
  induction parameters as [|[name has_default] parameters IH]; intros done todo kwargs.
  - destruct todo; reflexivity.
  - cbn [move_defaults]. rewrite length_app.
    destruct todo as [|value todo].
    + cbn [length]. rewrite Nat.add_0_r, Nat.leb_refl. reflexivity.
    + replace (length done + length (value :: todo) <=? length done)%nat with false
        by (symmetry; apply Nat.leb_gt; cbn [length]; lia).
      cbn [bind_defaults]. destruct has_default.
      * unfold list_pop. rewrite list_lookup_middle by reflexivity.
        rewrite delete_middle. apply IH.
      * replace (done ++ value :: todo)%list with ((done ++ [value]) ++ todo)%list
          by (rewrite <- app_assoc; reflexivity).
        replace (S (length done)) with (length (done ++ [value])%list)
          by (rewrite length_app; cbn [length]; lia).
        rewrite IH. destruct (bind_defaults parameters todo kwargs) as [pos kw].
        cbn [fst snd]. rewrite <- app_assoc. reflexivity.
Qed.

Lemma bind_defaults_length (parameters : list (string * bool)) :
  forall (args : list pyval) (kwargs : gmap string pyval),
    length (fst (bind_defaults parameters args kwargs)) <= length args.
Proof.
  induction parameters as [|[name d] parameters IH]; intros args kwargs.
  - destruct args; reflexivity.
  - destruct args as [|value args]; [reflexivity|]. cbn [bind_defaults].
    destruct d.
    + specialize (IH args (<[name := value]> kwargs)). cbn [length]. lia.
    + specialize (IH args kwargs).
      destruct (bind_defaults parameters args kwargs) as [pos kw].
      cbn [fst length] in *. lia.
Qed.

(** X18. The argument shuffle of the editor patch.  The index-and-pop loop
    never raises [IndexError] and computes exactly the pairing of
    parameters with positional arguments: arguments of parameters with a
    default become keyword arguments, the others stay positional in their
    order.  The patch then returns these arguments with [css] extended by
    the add-on's style, or raises [TypeError] when the [css] it finds is not
    a string; the world is left untouched either way. *)
Theorem nm_editor_web_view_stdHTML_around_spec
    (parameters : list (string * bool)) (args : list pyval)
    (kwargs : gmap string pyval) (w : World) :
  move_defaults parameters args 0 kwargs =
    Returned (bind_defaults parameters args kwargs) /\
  length (fst (bind_defaults parameters args kwargs)) <= length args /\
  nm_editor_web_view_stdHTML_around parameters args kwargs w =
    match dict_get (snd (bind_defaults parameters args kwargs)) "css" (PyStr "") with
    | PyStr css =>
        (Returned
           (fst (bind_defaults parameters args kwargs),
            <["css" := PyStr (css +:+ editor_custom_css (settings w))]>
              (snd (bind_defaults parameters args kwargs))), w)
    | _ => (Raised TypeError, w)
    end.
Proof.
  assert (H : move_defaults parameters args 0 kwargs =
              Returned (bind_defaults parameters args kwargs)).
  { pose proof (move_defaults_bind parameters [] args kwargs) as E.
    cbn [app length] in E. rewrite E.
    destruct (bind_defaults parameters args kwargs); reflexivity. }
  split; [exact H|]. split; [apply bind_defaults_length|].
  unfold nm_editor_web_view_stdHTML_around. rewrite run_gets, H.
  destruct (bind_defaults parameters args kwargs) as [pos kw]. cbn [fst snd].
  destruct (dict_get kw "css" (PyStr "")); reflexivity.
Qed.

(** *** The arrow icon (lines 1343-1361) *)

Definition where_to_look_for_arrow_icon : list string :=
  ["/usr/share/icons/Adwaita/scalable/actions/pan-down-symbolic.svg";
   "/usr/share/icons/gnome/scalable/actions/go-down-symbolic.svg";
   "/usr/share/icons/ubuntu-mobile/actions/scalable/dropdown-menu.svg";
   "/usr/share/icons/Humanity/actions/16/down.svg";
   "/usr/share/icons/Humanity/actions/16/go-down.svg";
   "/usr/share/icons/Humanity/actions/16/stock_down.svg";
   "/usr/share/icons/nuvola/16x16/actions/arrow-down.png";
   "/usr/share/icons/default.kde4/16x16/actions/arrow-down.png"].

(** The loop with its [break]: [current] is the value of
    [NM_DOWN_ARROW_ICON_PATH] so far, [isfile] is [os.path.isfile]. *)
Fixpoint first_file (isfile : string -> bool) (paths : list string)
    (current : string) : string :=
  match paths with
  | [] => current
  | path :: paths' => if isfile path then path else first_file isfile paths' current
  end.

Definition NM_DOWN_ARROW_ICON_PATH (isfile : string -> bool) : string :=
  first_file isfile where_to_look_for_arrow_icon ":/icons/gears.png".

Lemma first_file_spec (isfile : string -> bool) (paths : list string) (current : string) :
  (first_file isfile paths current = current /\
   forall p, In p paths -> isfile p = false) \/
  (exists before after,
     paths = (before ++ first_file isfile paths current :: after)%list /\
     isfile (first_file isfile paths current) = true /\
     forall p, In p before -> isfile p = false).
Proof.
  induction paths as [|path paths IH]; cbn [first_file].
  - left. split; [reflexivity | intros p []].
  - destruct (isfile path) eqn:E.
    + right. exists [], paths. repeat split; [exact E | intros p []].
    + destruct IH as [[H1 H2] | (before & after & H1 & H2 & H3)].
      * left. split; [exact H1|]. intros p [<-|Hp]; [exact E | apply H2, Hp].
      * right. exists (path :: before), after. split; [|split].
        -- cbn [app]. rewrite <- H1. reflexivity.
        -- exact H2.
        -- intros p [<-|Hp]; [exact E | apply H3, Hp].
Qed.

(** X19. The arrow icon is the first candidate that exists: for every file
    system, [NM_DOWN_ARROW_ICON_PATH] is either one of the eight candidate
    paths, which is then a file while no earlier candidate is, or the
    fallback [':/icons/gears.png'], and then none of the candidates is a
    file. *)
Theorem NM_DOWN_ARROW_ICON_PATH_first (isfile : string -> bool) :
  (NM_DOWN_ARROW_ICON_PATH isfile = ":/icons/gears.png" /\
   forall p, In p where_to_look_for_arrow_icon -> isfile p = false) \/
  (exists before after,
     where_to_look_for_arrow_icon =
       (before ++ NM_DOWN_ARROW_ICON_PATH isfile :: after)%list /\
     isfile (NM_DOWN_ARROW_ICON_PATH isfile) = true /\
     forall p, In p before -> isfile p = false).
Proof. apply first_file_spec. Qed.


End Night_Mode.

(** ** Properties of version 2.x *)

Section StylingManager_facts.

(** The stylers are opaque here, so their effect is described from outside:
    [attributes n app] is the state of the host attributes that the styler
    named [n] manages, [night n] and [original n] are their values once
    replaced and once restored. *)
Context {App V : Type}.
Variable attributes : string -> App -> V.
Variables night original : string -> V.

(** A styler writes the attributes filed under its own name only. *)
Definition separate (s : Styler App) : Prop :=
  forall n app, n <> name s ->
    attributes n (replace_attributes s app) = attributes n app /\
    attributes n (restore_attributes s app) = attributes n app.

Definition replaces (s : Styler App) : Prop :=
  forall app, attributes (name s) (replace_attributes s app) = night (name s).

Definition restores (s : Styler App) : Prop :=
  forall app, attributes (name s) (restore_attributes s app) = original (name s).

Lemma not_in_spec (x : string) (l : list string) : not_in x l = true <-> ~ In x l.
Proof.
  unfold not_in. rewrite negb_true_iff, <- not_true_iff_false, existsb_exists.
  split; intros H C; apply H.
  - exists x. split; [exact C | apply String.eqb_refl].
  - destruct C as (y & Hy & E). apply String.eqb_eq in E. subst y. exact Hy.
Qed.

Lemma active_stylers_spec (self : StylingManager App) (s : Styler App) :
  In s (active_stylers self) <->
  In s (stylers self) /\ ~ In (name s) (disabled_stylers self).
Proof. unfold active_stylers. rewrite filter_In, not_in_spec. reflexivity. Qed.

(** A loop over stylers that write separate attributes: the attributes of
    the names in the list reach their target, all others stay. *)
Lemma fold_stylers (f : Styler App -> App -> App) (target : string -> V)
    (l : list (Styler App)) :
  (forall s, In s l ->
     (forall n app, n <> name s -> attributes n (f s app) = attributes n app) /\
     (forall app, attributes (name s) (f s app) = target (name s))) ->
  forall app n,
    (In n (map name l) ->
     attributes n (fold_left (fun a s => f s a) l app) = target n) /\
    (~ In n (map name l) ->
     attributes n (fold_left (fun a s => f s a) l app) = attributes n app).
Proof.
  induction l as [|s l IH]; intros H app n; cbn [fold_left map].
  - split; [intros [] | reflexivity].
  - assert (Hl : forall t, In t l ->
        (forall n app, n <> name t -> attributes n (f t app) = attributes n app) /\
        (forall app, attributes (name t) (f t app) = target (name t)))
      by (intros t Ht; apply H; right; exact Ht).
    destruct (H s (or_introl eq_refl)) as [Hsep Hset].
    destruct (IH Hl (f s app) n) as [Hin Hout].
    destruct (in_dec string_dec n (map name l)) as [Hn|Hn].
    + split.
      * intros _. apply Hin, Hn.
      * intros Hn'. exfalso. apply Hn'. right. exact Hn.
    + rewrite (Hout Hn). split.
      * intros [<-|Hn']; [apply Hset | contradiction].
      * intros Hn'. apply Hsep. intros ->. apply Hn'. left. reflexivity.
Qed.

(** C7. For stylers that write separate attributes, [StylingManager.replace]
    runs over exactly the stylers whose name is not in [disabled_stylers]:
    their attributes are replaced, and the attributes filed under a disabled
    name are left as they were.  [StylingManager.restore] restores the
    attributes of every styler, disabled or not. *)
Theorem StylingManager_replace_restore (self : StylingManager App) (app : App) :
  Forall separate (stylers self) ->
  Forall replaces (stylers self) ->
  Forall restores (stylers self) ->
  (forall s, In s (active_stylers self) <->
             In s (stylers self) /\ ~ In (name s) (disabled_stylers self)) /\
  (forall s, In s (stylers self) -> ~ In (name s) (disabled_stylers self) ->
     attributes (name s) (StylingManager_replace self app) = night (name s)) /\
  (forall n, In n (disabled_stylers self) ->
     attributes n (StylingManager_replace self app) = attributes n app) /\
  (forall s, In s (stylers self) ->
     attributes (name s) (StylingManager_restore self app) = original (name s)).
Proof.
  intros Hsep Hrep Hres.
  rewrite List.Forall_forall in Hsep, Hrep, Hres.
  split; [apply active_stylers_spec|].
  assert (Hactive : forall app n,
    (In n (map name (active_stylers self)) ->
     attributes n (StylingManager_replace self app) = night n) /\
    (~ In n (map name (active_stylers self)) ->
     attributes n (StylingManager_replace self app) = attributes n app)).
  { apply fold_stylers. intros s Hs. apply active_stylers_spec in Hs.
    destruct Hs as [Hs _]. split.
    - intros n a Hn. exact (proj1 (Hsep s Hs n a Hn)).
    - exact (Hrep s Hs). }
  split; [|split].
  - intros s Hs Hd. apply Hactive. apply in_map, active_stylers_spec. tauto.
  - intros n Hn. apply Hactive. intros Hin.
    apply in_map_iff in Hin. destruct Hin as (s & <- & Hs).
    apply active_stylers_spec in Hs. tauto.
  - intros s Hs.
    refine (proj1 (fold_stylers restore_attributes original (stylers self) _ app (name s)) _).
    + intros t Ht. split.
      * intros n a Hn. exact (proj2 (Hsep t Ht n a Hn)).
      * exact (Hres t Ht).
    + apply in_map, Hs.
Qed.

End StylingManager_facts.

(** C9. [night_class_injection] returns one [<script>] element followed by
    the html it was given, unchanged; the script is the one that adds the
    [night_mode] class when [state_on] is true and the one that removes it
    otherwise, whatever the html, the card and the context are. *)
Theorem night_class_injection_prefix {Card Context : Type}
    (self : NightMode) (html : string) (card : Card) (context : Context) :
  night_class_injection self html card context =
  "<script>" +:+
  (if truthy (config_state_on_value self)
   then javascript_add_night_mode_class
   else javascript_remove_night_mode_class) +:+
  "</script>" +:+ html.
Proof.
  unfold night_class_injection. rewrite !str_append_assoc. reflexivity.
Qed.

(** ** Sessions

    A palette, a host with two command lists per latex kind, and the world
    after Anki has imported the add-on and loaded a profile. *)

Definition example_theme : Theme :=
  {| color0 := "#1d1f21"; color1 := "#282a2e"; color3 := "#f0c674";
     color4 := "#81a2be"; color7 := "#c5c8c6"; foreground := "#c5c8c6" |}.

Definition example_host (p : gmap string pyval) : World :=
  {| settings :=
       {| nm_state_on := PyNone; nm_enable_in_dialogs := PyNone;
          nm_invert_image := PyNone; nm_invert_latex := PyNone;
          nm_transparent_latex := PyNone; nm_color_bl := PyNone;
          nm_color_td := PyNone |};
     nm_profile_loaded := false;
     actions :=
       {| nm_menu_switch := None; nm_menu_iimage := None; nm_menu_ilatex := None;
          nm_menu_endial := None; nm_menu_tlatex := None |};
     nm_css_custom_colors := "";
     nm_custom_color_map := [];
     defaults :=
       {| nm_default_css_menu := ""; nm_default_css_top := "";
          nm_default_css_body := ""; nm_default_reviewer_html := "";
          nm_default_css_bottom := ""; nm_default_css_decks := "";
          nm_default_css_decks_bottom := ""; nm_default_css_overview := "";
          nm_default_css_overview_bottom := "";
          nm_default_css_waiting_screen := "";
          DEFLAULT_COLOUR_MARKED := ""; DEFLAULT_COLOUR_SUSPENDED := "" |};
     styles :=
       {| mw_styleSheet := "QMainWindow{}"; toolbar_css := "#header{}";
          reviewer_bottomCSS := "#outer{}"; reviewer_css := "hr{}";
          reviewer_revHtml := "<div id=qa></div>"; deckBrowser_css := "a.deck{}";
          deckBrowser_bottom_css := "#header{}"; overview_css := ".descfont{}";
          overview_bottom_css := "#header{}"; sharedCSS := "body{}" |};
     COLOUR_MARKED := "#cce"; COLOUR_SUSPENDED := "#ffffb2";
     mw_state := "deckBrowser";
     profile := p;
     latex :=
       {| pngCommands := [["latex"; "tmp.tex"]; ["dvipng"; "tmp.dvi"]];
          svgCommands := [["latex"; "tmp.tex"]; ["dvisvgm"; "tmp.dvi"]];
          latexCmds := [["latex"; "tmp.tex"]; ["dvipng"; "tmp.dvi"]] |};
     addon_view_menu := None;
     nm_menu := [];
     calls := [] |}.

(** The world once the module is imported into Anki [version]. *)
Definition imported (version : string) (p : gmap string pyval) : World :=
  snd (import_module example_theme version (example_host p)).

(** The world once the [profileLoaded] hook has run [nm_load] as well. *)
Definition started (version : string) (p : gmap string pyval) : World :=
  exec (nm_load example_theme version) (imported version p).

(** A profile in which night mode was switched off. *)
Definition day_profile : gmap string pyval := {[ "nm_state_on" := PyBool false ]}.

(** *** C1 *)

(** A session in which night mode is off saves its settings; the next
    session imports the module afresh over the saved profile and loads. *)
Lemma nm_save_nm_load_roundtrip_witness :
  settings (exec (nm_load example_theme "2.1.49")
              (imported "2.1.49" (profile (exec nm_save (started "2.1.49" day_profile))))) =
  settings (started "2.1.49" day_profile).
Proof.
  refine (proj2 (proj2 (proj2
    (nm_save_nm_load_roundtrip example_theme "2.1.49"
       (started "2.1.49" day_profile)
       (imported "2.1.49" (profile (exec nm_save (started "2.1.49" day_profile))))
       _))) _).
  - vm_compute. reflexivity.
  - vm_compute. reflexivity.
Defined.

(** *** C2 *)

Lemma nm_on_nm_off_restores_witness :
  original_styles_in_place "2.1.49" (started "2.1.49" day_profile) /\
  style_attributes
    (exec (nm_off example_theme "2.1.49")
       (exec (nm_on example_theme "2.1.49") (started "2.1.49" day_profile))) =
  saved_attributes (defaults (started "2.1.49" day_profile)).
Proof.
  assert (H : original_styles_in_place "2.1.49" (started "2.1.49" day_profile))
    by (split; vm_compute; reflexivity).
  split; [exact H|].
  exact (proj1 (nm_on_nm_off_restores example_theme "2.1.49" _ H)).
Defined.

(** With night mode off, a loaded profile and the original styles in place,
    switching on and off again leaves the reviewer's body style changed: on
    2.1 the saved [_revHtml] has gained an empty [<style>] element, on 2.0
    the saved [_css] has gained the scrollbar CSS. *)
Lemma nm_on_nm_off_changes_review_body :
  (original_styles_in_place "2.1.49" (started "2.1.49" day_profile) /\
   nm_state_on (settings (started "2.1.49" day_profile)) = PyBool false /\
   reviewer_revHtml
     (styles (exec (nm_off example_theme "2.1.49")
                (exec (nm_on example_theme "2.1.49") (started "2.1.49" day_profile)))) =
   "<div id=qa></div><style></style>" /\
   nm_default_reviewer_html (defaults (started "2.1.49" day_profile)) =
   "<div id=qa></div>" /\
   review_body "2.1.49"
     (styles (exec (nm_off example_theme "2.1.49")
                (exec (nm_on example_theme "2.1.49") (started "2.1.49" day_profile)))) <>
   default_review_body "2.1.49" (defaults (started "2.1.49" day_profile))) /\
  (original_styles_in_place "2.0.52" (started "2.0.52" day_profile) /\
   nm_state_on (settings (started "2.0.52" day_profile)) = PyBool false /\
   reviewer_css
     (styles (exec (nm_off example_theme "2.0.52")
                (exec (nm_on example_theme "2.0.52") (started "2.0.52" day_profile)))) =
   "hr{}" +:+ nm_css_scrollbar example_theme /\
   nm_default_css_body (defaults (started "2.0.52" day_profile)) = "hr{}" /\
   review_body "2.0.52"
     (styles (exec (nm_off example_theme "2.0.52")
                (exec (nm_on example_theme "2.0.52") (started "2.0.52" day_profile)))) <>
   default_review_body "2.0.52" (defaults (started "2.0.52" day_profile))).
Proof.
  split; (split; [split; vm_compute; reflexivity|]);
    repeat (split; [vm_compute; reflexivity|]);
    intros E; vm_compute in E; discriminate E.
Qed.

(** *** C3 *)

Lemma nm_load_defaults_witness :
  get_setting Color_td
    (settings (exec (nm_load example_theme "2.1.49") (imported "2.1.49" day_profile))) =
  PyStr (color7 example_theme) /\
  get_setting State_on
    (settings (exec (nm_load example_theme "2.1.49") (imported "2.1.49" day_profile))) =
  PyBool false.
Proof.
  assert (H : forall x, profile (imported "2.1.49" day_profile) !! "nm_state_on" = Some x ->
              is_pybool x = true).
  { intros x E. vm_compute in E. injection E as <-. reflexivity. }
  split.
  - exact (nm_load_defaults example_theme "2.1.49" _ Color_td H).
  - exact (nm_load_defaults example_theme "2.1.49" _ State_on H).
Defined.

(** *** C4 *)

Lemma nm_save_nm_load_skip_color_map_witness :
  profile (exec nm_save (started "2.1.49" ∅)) !! "night_mode" =
  None.
Proof.
  rewrite (proj1 (proj2 (nm_save_nm_load_skip_color_map example_theme "2.1.49" _))).
  - vm_compute. reflexivity.
  - vm_compute. intuition discriminate.
Defined.

(** A table edited in one session is not back in the next: the profile that
    [nm_save] leaves holds seven entries, and after a restart with that
    profile [nm_load] leaves the table of the module's source in place. *)
Lemma color_map_not_persisted :
  nm_custom_color_map
    (with_custom_color_map [("#007700", "#FFFFFF")] (started "2.1.49" ∅)) =
  [("#007700", "#FFFFFF")] /\
  size (profile (exec nm_save
                   (with_custom_color_map [("#007700", "#FFFFFF")]
                      (started "2.1.49" ∅)))) = 7 /\
  nm_custom_color_map
    (started "2.1.49"
       (profile (exec nm_save
                   (with_custom_color_map [("#007700", "#FFFFFF")]
                      (started "2.1.49" ∅))))) =
  [("#007700", "#30DC16"); ("#000099", "#00BBFF");
   ("#C35617", "#D46728"); ("#00a", "#00BBFF")] /\
  nm_custom_color_map
    (started "2.1.49"
       (profile (exec nm_save
                   (with_custom_color_map [("#007700", "#FFFFFF")]
                      (started "2.1.49" ∅))))) <>
  nm_custom_color_map
    (with_custom_color_map [("#007700", "#FFFFFF")] (started "2.1.49" ∅)).
Proof.
  repeat (split; [vm_compute; reflexivity|]).
  intros E; vm_compute in E; discriminate E.
Qed.

(** *** C5 *)

(** C5 (evaluated where the code departs from it). After [nm_load] the
    checkable actions do not always reflect the loaded settings.  On a
    profile that has [nm_invert_image] set,
    [nm_load] raises [AttributeError] at [nm_menu_iimage.setChecked]: the
    global is still [None], and the dialogs action is never reached, so it
    stays unchecked although [nm_enable_in_dialogs] is true.  On a profile
    that switches night mode and the dialogs option off, loaded after a
    profile that had them on, [nm_load] returns and both actions stay
    checked. *)
Theorem nm_load_menu_out_of_step :
  (result (nm_load example_theme "2.1.49")
     (imported "2.1.49" {[ "nm_invert_image" := PyBool true ]}) = Raised AttributeError /\
   nm_enable_in_dialogs
     (settings (started "2.1.49" {[ "nm_invert_image" := PyBool true ]})) = PyBool true /\
   checked Menu_endial (started "2.1.49" {[ "nm_invert_image" := PyBool true ]}) =
     Some false /\
   checked Menu_iimage (started "2.1.49" {[ "nm_invert_image" := PyBool true ]}) = None) /\
  (checked Menu_switch (started "2.1.49" ∅) = Some true /\
   checked Menu_endial (started "2.1.49" ∅) = Some true /\
   result (nm_load example_theme "2.1.49")
     (with_profile
        (<["nm_state_on" := PyBool false]> {[ "nm_enable_in_dialogs" := PyBool false ]})
        (started "2.1.49" ∅)) = Returned tt /\
   settings
     (exec (nm_load example_theme "2.1.49")
        (with_profile
           (<["nm_state_on" := PyBool false]> {[ "nm_enable_in_dialogs" := PyBool false ]})
           (started "2.1.49" ∅))) =
     {| nm_state_on := PyBool false; nm_enable_in_dialogs := PyBool false;
        nm_invert_image := PyBool false; nm_invert_latex := PyBool false;
        nm_transparent_latex := PyBool false;
        nm_color_bl := PyStr "#282a2e"; nm_color_td := PyStr "#c5c8c6" |} /\
   checked Menu_switch
     (exec (nm_load example_theme "2.1.49")
        (with_profile
           (<["nm_state_on" := PyBool false]> {[ "nm_enable_in_dialogs" := PyBool false ]})
           (started "2.1.49" ∅))) = Some true /\
   checked Menu_endial
     (exec (nm_load example_theme "2.1.49")
        (with_profile
           (<["nm_state_on" := PyBool false]> {[ "nm_enable_in_dialogs" := PyBool false ]})
           (started "2.1.49" ∅))) = Some true).
Proof. repeat split; vm_compute; reflexivity. Qed.

(** *** C6 *)

Lemma nm_append_to_styles_body_witness :
  review_body "2.1.49"
    (styles (exec (nm_append_to_styles example_theme "2.1.49"
                     "" ".card{}" "" "" "" "" "" "")
               (started "2.1.49" day_profile))) =
  styled_body example_theme "2.1.49" (defaults (started "2.1.49" day_profile)) ".card{}".
Proof.
  apply (nm_append_to_styles_body example_theme "2.1.49"
           "" ".card{}" "" "" "" "" "" "" (started "2.1.49" day_profile));
    vm_compute; reflexivity.
Defined.

(** With both inversion flags false the body style is not the saved default
    plus the caller's body: on 2.1 the body is wrapped in a [<style>]
    element behind the saved html, on 2.0 the scrollbar CSS follows it. *)
Lemma nm_append_to_styles_body_is_wrapped :
  (truthy (nm_invert_image (settings (started "2.1.49" day_profile))) = false /\
   truthy (nm_invert_latex (settings (started "2.1.49" day_profile))) = false /\
   reviewer_revHtml
     (styles (exec (nm_append_to_styles example_theme "2.1.49"
                      "" ".card{}" "" "" "" "" "" "")
                (started "2.1.49" day_profile))) =
   "<div id=qa></div><style>.card{}</style>" /\
   nm_default_reviewer_html (defaults (started "2.1.49" day_profile)) +:+ ".card{}" =
   "<div id=qa></div>.card{}" /\
   nm_default_css_body (defaults (started "2.1.49" day_profile)) +:+ ".card{}" =
   ".card{}" /\
   review_body "2.1.49"
     (styles (exec (nm_append_to_styles example_theme "2.1.49"
                      "" ".card{}" "" "" "" "" "" "")
                (started "2.1.49" day_profile))) <>
   default_review_body "2.1.49" (defaults (started "2.1.49" day_profile)) +:+ ".card{}") /\
  (truthy (nm_invert_image (settings (started "2.0.52" day_profile))) = false /\
   truthy (nm_invert_latex (settings (started "2.0.52" day_profile))) = false /\
   reviewer_css
     (styles (exec (nm_append_to_styles example_theme "2.0.52"
                      "" ".card{}" "" "" "" "" "" "")
                (started "2.0.52" day_profile))) =
   "hr{}.card{}" +:+ nm_css_scrollbar example_theme /\
   nm_default_css_body (defaults (started "2.0.52" day_profile)) +:+ ".card{}" =
   "hr{}.card{}" /\
   review_body "2.0.52"
     (styles (exec (nm_append_to_styles example_theme "2.0.52"
                      "" ".card{}" "" "" "" "" "" "")
                (started "2.0.52" day_profile))) <>
   default_review_body "2.0.52" (defaults (started "2.0.52" day_profile)) +:+ ".card{}").
Proof.
  split; repeat (split; [vm_compute; reflexivity|]);
    intros E; vm_compute in E; discriminate E.
Qed.

(** *** C7 *)

(** Two stylers over a host whose attributes are a map from styler names. *)
Definition example_styler (n : string) : Styler (gmap string string) :=
  {| name := n;
     replace_attributes := fun app => <[n := "night"]> app;
     restore_attributes := fun app => <[n := "day"]> app |}.

Definition example_manager : StylingManager (gmap string string) :=
  {| stylers := [example_styler "toolbar"; example_styler "reviewer"];
     disabled_stylers := ["reviewer"] |}.

Lemma example_stylers_separate :
  Forall (separate (fun n (app : gmap string string) => app !! n)) (stylers example_manager).
Proof.
  unfold example_manager; cbn [stylers].
  constructor; [|constructor; [|constructor]];
    intros n app Hn; cbn in *;
    split; rewrite lookup_insert_ne by congruence; reflexivity.
Defined.

Lemma example_stylers_replace :
  Forall (replaces (fun n (app : gmap string string) => app !! n) (fun _ => Some "night"))
    (stylers example_manager).
Proof.
  unfold example_manager; cbn [stylers].
  constructor; [|constructor; [|constructor]];
    intros app; cbn; apply lookup_insert_eq.
Defined.

Lemma example_stylers_restore :
  Forall (restores (fun n (app : gmap string string) => app !! n) (fun _ => Some "day"))
    (stylers example_manager).
Proof.
  unfold example_manager; cbn [stylers].
  constructor; [|constructor; [|constructor]];
    intros app; cbn; apply lookup_insert_eq.
Defined.

Lemma StylingManager_replace_restore_witness :
  StylingManager_replace example_manager ∅ !! "reviewer" = None /\
  StylingManager_replace example_manager ∅ !! "toolbar" = Some "night" /\
  StylingManager_restore example_manager
    (StylingManager_replace example_manager ∅) !! "reviewer" = Some "day".
Proof.
  pose proof (StylingManager_replace_restore
                (fun n (app : gmap string string) => app !! n)
                (fun _ => Some "night") (fun _ => Some "day") example_manager)
    as H.
  split; [|split].
  - destruct (H ∅ example_stylers_separate example_stylers_replace example_stylers_restore)
      as (_ & _ & Hd & _).
    rewrite (Hd "reviewer"); [reflexivity | left; reflexivity].
  - destruct (H ∅ example_stylers_separate example_stylers_replace example_stylers_restore)
      as (_ & Hr & _ & _).
    apply (Hr (example_styler "toolbar")); [left; reflexivity|].
    cbn. intros [E|[]]. discriminate E.
  - destruct (H (StylingManager_replace example_manager ∅)
                example_stylers_separate example_stylers_replace example_stylers_restore)
      as (_ & _ & _ & Hs).
    apply (Hs (example_styler "reviewer")). right; left; reflexivity.
Defined.

(** *** C8 *)

Lemma nm_on_nm_off_profile_not_loaded_witness :
  nm_profile_loaded (imported "2.1.49" ∅) = false /\
  result (nm_on example_theme "2.1.49") (imported "2.1.49" ∅) = Returned false /\
  result (nm_off example_theme "2.1.49") (imported "2.1.49" ∅) = Returned false /\
  styles (exec (nm_on example_theme "2.1.49") (imported "2.1.49" ∅)) =
  styles (imported "2.1.49" ∅).
Proof.
  assert (H : nm_profile_loaded (imported "2.1.49" ∅) = false) by (vm_compute; reflexivity).
  destruct (nm_on_nm_off_profile_not_loaded example_theme "2.1.49" _ H)
    as ([Hon Hoff] & _ & Hst & _).
  unfold result, exec. rewrite Hon, Hoff. cbn [fst snd].
  split; [exact H|]. split; [reflexivity|]. split; [reflexivity|]. exact Hst.
Defined.

(** *** C10 *)

Lemma nm_tlatex_flag_and_commands_witness :
  truthy (nm_transparent_latex (settings (started "2.0.52" ∅))) = false /\
  get_latex LatexCmds (latex (exec (nm_tlatex "2.0.52") (started "2.0.52" ∅))) =
    <[1 := transparent_dvipng]> (get_latex LatexCmds (latex (started "2.0.52" ∅))) /\
  latex (exec (nm_tlatex "2.0.52") (exec (nm_tlatex "2.0.52") (started "2.0.52" ∅))) =
    latex (exec (nm_tlatex "2.0.52") (started "2.0.52" ∅)) /\
  latexCmds (latex (exec (nm_tlatex "2.0.52")
                      (exec (nm_tlatex "2.0.52") (started "2.0.52" ∅)))) =
    [["latex"; "tmp.tex"]; transparent_dvipng].
Proof.
  assert (Hold : truthy (nm_transparent_latex (settings (started "2.0.52" ∅))) = false)
    by (vm_compute; reflexivity).
  assert (Hlen : forall v, In v (latex_command_lists "2.0.52") ->
                 1 < length (get_latex v (latex (started "2.0.52" ∅)))).
  { intros v Hv. vm_compute in Hv. destruct Hv as [<-|[]]. vm_compute. lia. }
  destruct (nm_tlatex_flag_and_commands "2.0.52" (started "2.0.52" ∅))
    as (_ & _ & _ & H).
  destruct (H Hold Hlen) as (_ & Hv & Hsame).
  split; [exact Hold|].
  split; [exact (Hv LatexCmds (or_introl eq_refl))|].
  split; [exact Hsame|].
  vm_compute. reflexivity.
Defined.

(** ** More of version 2.x *)

Lemma night_class_injection_unfold {Card Context : Type}
    (self : NightMode) (html : string) (card : Card) (context : Context) :
  night_class_injection self html card context =
  ("<script>" +:+
   (if truthy (config_state_on_value self)
    then javascript_add_night_mode_class
    else javascript_remove_night_mode_class) +:+
   "</script>") +:+ html.
Proof. reflexivity. Qed.

Lemma str_append_cancel_l (a x y : string) : a +:+ x = a +:+ y -> x = y.
Proof.
  induction a as [|c a IH]; intros H; [exact H|].
  rewrite !str_append_cons in H. injection H as H. apply IH, H.
Qed.

(** X20. Nothing is lost in [night_class_injection]: for a given state the
    html can be read back from the result (two different cards never get
    the same page), and the result always tells the state, since a page
    made with night mode on differs from any page made with night mode
    off. *)
Theorem night_class_injection_injective {Card Context : Type}
    (self other : NightMode) (html1 html2 : string)
    (card1 card2 : Card) (context1 context2 : Context) :
  (night_class_injection self html1 card1 context1 =
   night_class_injection self html2 card2 context2 -> html1 = html2) /\
  (truthy (config_state_on_value self) = true ->
   truthy (config_state_on_value other) = false ->
   night_class_injection self html1 card1 context1 <>
   night_class_injection other html2 card2 context2).
Proof.
  split.
  - rewrite !night_class_injection_unfold. apply str_append_cancel_l.
  - intros Hon Hoff E. rewrite !night_class_injection_unfold, Hon, Hoff in E.
    vm_compute in E. discriminate E.
Qed.

(** [NightMode.refresh] (lines 160-194), with [on] and [off] (lines
    152-158).  The host of version 2.x is the application state that the
    stylers write, the screen [mw.state] and the calls made; the stylers of
    the model do not raise, so the [except] branch has no counterpart. *)

Inductive MwCall : Type :=
| alert (msg : string)
| moveToState (state : string)
| mw_deckBrowser_refresh
| mw_overview_refresh
| mw_toolbar_draw
| menu_update_checkboxes.

Record Mw (App : Type) : Type := {
  mw_app : App;
  mw_screen : string;
  mw_calls : list MwCall
}.
Arguments mw_app {App} _.
Arguments mw_screen {App} _.
Arguments mw_calls {App} _.

(** A call is recorded; [mw.moveToState(s)] also leaves [mw.state] at [s],
    as Anki's [moveToState] does. *)
Definition mw_call {App} (c : MwCall) (mw : Mw App) : Mw App :=
  {| mw_app := mw_app mw;
     mw_screen := match c with moveToState s => s | _ => mw_screen mw end;
     mw_calls := (mw_calls mw ++ [c])%list |}.

Definition mw_style {App} (f : App -> App) (mw : Mw App) : Mw App :=
  {| mw_app := f (mw_app mw); mw_screen := mw_screen mw; mw_calls := mw_calls mw |}.

(** Module-level constant [ERROR_NO_PROFILE] (line 245) *)
Definition ERROR_NO_PROFILE : string :=
  "Switching night mode failed: The profile is not loaded yet.
Probably it's a bug of Anki or you tried to switch mode to quickly.".

Definition NightMode_on {App} (styles : StylingManager App) : Mw App -> Mw App :=
  mw_style (StylingManager_replace styles).

Definition NightMode_off {App} (styles : StylingManager App) : Mw App -> Mw App :=
  mw_style (StylingManager_restore styles).

(** The result is [None] for the bare [return], [Some true] for
    [return True]. *)
Definition NightMode_refresh {App} (self : NightMode) (styles : StylingManager App)
    (reload : bool) (mw : Mw App) : option bool * Mw App :=
  let state := config_state_on_value self in
  if negb (profile_loaded self) then (None, mw_call (alert ERROR_NO_PROFILE) mw)
  else
    let mw :=
      if truthy state
      then NightMode_on styles (if reload then NightMode_off styles mw else mw)
      else NightMode_off styles mw in
    let mw :=
      if String.eqb (mw_screen mw) "review"
      then mw_call (moveToState "review") (mw_call (moveToState "overview") mw)
      else mw in
    let mw :=
      if String.eqb (mw_screen mw) "deckBrowser"
      then mw_call mw_deckBrowser_refresh mw else mw in
    let mw :=
      if String.eqb (mw_screen mw) "overview"
      then mw_call mw_overview_refresh mw else mw in
    let mw := mw_call mw_toolbar_draw mw in
    let mw := mw_call menu_update_checkboxes mw in
    (Some true, mw).

Lemma NightMode_refresh_app {App} (self : NightMode) (styles : StylingManager App)
    (reload : bool) (mw : Mw App) :
  mw_app (snd (NightMode_refresh self styles reload mw)) =
  if negb (profile_loaded self) then mw_app mw
  else if truthy (config_state_on_value self)
       then StylingManager_replace styles
              (if reload then StylingManager_restore styles (mw_app mw) else mw_app mw)
       else StylingManager_restore styles (mw_app mw).
Proof.
  unfold NightMode_refresh.
  destruct (negb (profile_loaded self)); [reflexivity|]. cbv zeta.
  repeat match goal with |- context [if String.eqb ?a ?b then _ else _] =>
    destruct (String.eqb a b) end;
    cbn [snd mw_app mw_call];
    destruct (truthy (config_state_on_value self)), reload; reflexivity.
Qed.

(** X21. [NightMode.refresh] and the disabled stylers.  Before the profile
    is loaded, [refresh] only alerts and returns nothing: no styler runs.
    With a loaded profile and night mode on, [refresh(reload=True)]
    restores before it replaces, so afterwards every enabled styler shows
    its night attributes and every disabled one its original attributes,
    whatever was there before; a plain [refresh()] leaves the attributes
    under a disabled name as they were. *)
Theorem NightMode_refresh_reload {App V : Type}
    (attributes : string -> App -> V) (night original : string -> V)
    (self : NightMode) (styles : StylingManager App) (reload : bool) (mw : Mw App) :
  Forall (separate attributes) (stylers styles) ->
  Forall (replaces attributes night) (stylers styles) ->
  Forall (restores attributes original) (stylers styles) ->
  (profile_loaded self = false ->
   NightMode_refresh self styles reload mw = (None, mw_call (alert ERROR_NO_PROFILE) mw)) /\
  (profile_loaded self = true ->
   truthy (config_state_on_value self) = true ->
   fst (NightMode_refresh self styles reload mw) = Some true /\
   forall s, In s (stylers styles) ->
     attributes (name s) (mw_app (snd (NightMode_refresh self styles reload mw))) =
     if not_in (name s) (disabled_stylers styles) then night (name s)
     else if reload then original (name s)
          else attributes (name s) (mw_app mw)).
Proof.
  intros Hsep Hrep Hres.
  rewrite List.Forall_forall in Hsep, Hrep, Hres.
  split.
  - intros Hl. unfold NightMode_refresh. rewrite Hl. reflexivity.
  - intros Hl Hon. split.
    { unfold NightMode_refresh. rewrite Hl. reflexivity. }
    intros s Hs. rewrite NightMode_refresh_app, Hl, Hon. cbn [negb].
    assert (Hactive : forall app n,
      (In n (map name (active_stylers styles)) ->
       attributes n (StylingManager_replace styles app) = night n) /\
      (~ In n (map name (active_stylers styles)) ->
       attributes n (StylingManager_replace styles app) = attributes n app)).
    { apply fold_stylers. intros t Ht. apply active_stylers_spec in Ht.
      destruct Ht as [Ht _]. split.
      - intros n a Hn. exact (proj1 (Hsep t Ht n a Hn)).
      - exact (Hrep t Ht). }
    destruct (not_in (name s) (disabled_stylers styles)) eqn:E.
    + apply Hactive, in_map, active_stylers_spec. split; [exact Hs|].
      apply not_in_spec, E.
    + rewrite (proj2 (Hactive _ (name s))).
      * destruct reload; [|reflexivity].
        refine (proj1 (fold_stylers attributes restore_attributes original
                         (stylers styles) _ (mw_app mw) (name s)) _).
        -- intros t Ht. split.
           ++ intros n a Hn. exact (proj2 (Hsep t Ht n a Hn)).
           ++ exact (Hres t Ht).
        -- apply in_map, Hs.
      * intros Hin. apply in_map_iff in Hin. destruct Hin as (t & Hn & Ht).
        apply active_stylers_spec in Ht. destruct Ht as [_ Ht].
        rewrite Hn in Ht. apply not_in_spec in Ht. congruence.
Qed.

(** ** Sessions, continued *)

(** The running session of the examples: Anki 2.1 started on an empty
    profile, so night mode is on and both menu actions are checked. *)
Definition night_session : World := started "2.1.49" ∅.

Lemma night_session_loaded : nm_profile_loaded night_session = true.
Proof. vm_compute. reflexivity. Defined.

Lemma night_session_text_colour :
  nm_color_td (settings night_session) = PyStr "#c5c8c6".
Proof. vm_compute. reflexivity. Defined.


Lemma night_session_switch :
  nm_menu_switch (actions night_session) =
  Some {| action_text := "&Enable night mode"; action_checkable := true;
          action_checked := true |}.
Proof. vm_compute. reflexivity. Defined.

Lemma nm_on_switches_on_witness :
  result (nm_on example_theme "2.1.49") night_session = Returned true.
Proof.
  exact (proj1 (nm_on_switches_on example_theme "2.1.49" night_session _ _
                  night_session_loaded night_session_text_colour
                  night_session_switch eq_refl)).
Defined.

Lemma nm_on_applies_color_map_witness :
  occurs (color_rule ("#00a", "#00BBFF"))
    (review_body "2.1.49" (styles (exec (nm_on example_theme "2.1.49") night_session))).
Proof.
  apply (nm_on_applies_color_map example_theme "2.1.49" night_session "#c5c8c6").
  - exact night_session_loaded.
  - exact night_session_text_colour.
  - vm_compute. auto 6.
Defined.

Lemma nm_off_resets_any_state_witness :
  style_attributes (exec (nm_off example_theme "2.1.49") night_session) =
  saved_attributes (defaults night_session).
Proof.
  exact (proj1 (nm_off_resets_any_state example_theme "2.1.49" night_session
                  night_session_loaded)).
Defined.

Lemma nm_refresh_keeps_settings_witness :
  settings (exec (nm_refresh example_theme "2.1.49") night_session) =
  settings night_session.
Proof.
  apply nm_refresh_keeps_settings. vm_compute. reflexivity.
Defined.

Lemma nm_switch_toggles_witness :
  settings (exec (nm_switch example_theme "2.1.49" [false; true]) night_session) =
  set_setting State_on (PyBool (negb true)) (settings night_session).
Proof.
  assert (Hs : nm_state_on (settings night_session) = PyBool true)
    by (vm_compute; reflexivity).
  assert (Hr : switch_refused "2.1.49" [false; true] = false)
    by (vm_compute; reflexivity).
  destruct (nm_switch_toggles example_theme "2.1.49" [false; true] night_session true Hs)
    as [_ H].
  destruct (H Hr night_session_loaded) as (_ & H2 & _). exact H2.
Defined.

Lemma nm_endial_toggles_witness :
  settings (exec nm_endial (exec nm_endial night_session)) = settings night_session.
Proof.
  destruct (nm_endial_toggles night_session) as [_ H].
  apply H. vm_compute. reflexivity.
Defined.


Lemma night_session_commands :
  forall v, In v (latex_command_lists "2.1.49") ->
            1 < length (get_latex v (latex night_session)).
Proof.
  intros v Hv. vm_compute in Hv. destruct Hv as [<-|[<-|[]]]; vm_compute; lia.
Defined.

Lemma nm_make_latex_transparent_idempotent_witness :
  latex (exec (nm_make_latex_transparent "2.1.49")
           (exec (nm_make_latex_transparent "2.1.49") night_session)) =
  latex (exec (nm_make_latex_transparent "2.1.49") night_session).
Proof.
  exact (proj1 (nm_make_latex_transparent_idempotent "2.1.49" night_session
                  night_session_commands)).
Defined.

(** A host whose command list for Anki 2.0 holds the latex call only. *)
Definition short_commands : World :=
  with_latex {| pngCommands := []; svgCommands := []; latexCmds := [["latex"; "tmp.tex"]] |}
    (started "2.0.52" ∅).

Lemma nm_make_latex_transparent_index_error_witness :
  nm_make_latex_transparent "2.0.52" short_commands = (Raised IndexError, short_commands).
Proof.
  destruct (nm_make_latex_transparent_index_error "2.0.52" short_commands) as [H _].
  apply H. vm_compute. lia.
Defined.

Lemma nm_load_nm_on_never_uncheck_witness :
  checked Menu_endial
    (exec (nm_load example_theme "2.1.49")
       (with_profile {[ "nm_enable_in_dialogs" := PyBool false ]} night_session)) =
  Some true.
Proof.
  apply nm_load_nm_on_never_uncheck. vm_compute. reflexivity.
Defined.

Lemma nm_save_stable_witness :
  profile (exec nm_save (exec (nm_load example_theme "2.1.49") (exec nm_save night_session))) =
  profile (exec nm_save night_session).
Proof.
  destruct (nm_save_stable example_theme "2.1.49" (exec nm_save night_session)) as [_ H].
  apply H.
  - intros v. destruct v; vm_compute; eexists; reflexivity.
  - intros x E. vm_compute in E. injection E as <-. reflexivity.
Defined.

Lemma night_class_injection_injective_witness :
  night_class_injection {| profile_loaded := true; config_state_on_value := PyBool true |}
    "<b>front</b>" tt tt <>
  night_class_injection {| profile_loaded := true; config_state_on_value := PyBool false |}
    "<b>front</b>" tt tt.
Proof.
  apply (night_class_injection_injective
           {| profile_loaded := true; config_state_on_value := PyBool true |}
           {| profile_loaded := true; config_state_on_value := PyBool false |}
           "<b>front</b>" "<b>front</b>" tt tt tt tt); reflexivity.
Defined.

Lemma NightMode_refresh_reload_witness :
  mw_app (snd (NightMode_refresh
                 {| profile_loaded := true; config_state_on_value := PyBool true |}
                 example_manager true
                 {| mw_app := {[ "reviewer" := "night" ]}; mw_screen := "deckBrowser";
                    mw_calls := [] |})) !! "reviewer" = Some "day".
Proof.
  destruct (NightMode_refresh_reload
              (fun n (app : gmap string string) => app !! n)
              (fun _ => Some "night") (fun _ => Some "day")
              {| profile_loaded := true; config_state_on_value := PyBool true |}
              example_manager true
              {| mw_app := {[ "reviewer" := "night" ]}; mw_screen := "deckBrowser";
                 mw_calls := [] |}
              example_stylers_separate example_stylers_replace example_stylers_restore)
    as [_ H].
  destruct (H eq_refl eq_refl) as [_ Hs].
  exact (Hs (example_styler "reviewer") (or_intror (or_introl eq_refl))).
Defined.
